(** * TapTapBug: the BugTap game controller

    A shallow embedding of [src/bugTap/BugTap.ts] (class [BugTap extends
    Game]) and of the earlier revision of the same class that ships beside
    it, followed by the properties of the spawn scheduler, the tap resolver,
    the time tracker and the start/pause glue.

    The class mutates one object ([this]) from event handlers and timer
    callbacks that run to completion one at a time.  The embedding is
    explicit state passing over a record [BugTap] that holds the fields of
    the object together with the pieces of the browser the handlers write
    to (the key-value store, the page elements, the pending timers, the
    sound).  A handler is a function [BugTap -> BugTap], or
    [BugTap -> option BugTap] where the source can raise.

    JavaScript numbers are modelled as [Z]: every number the class computes
    with is an integer, and [Z] agrees with the double arithmetic of the
    source below 2^53. *)

From stdpp Require Import gmap strings list pretty sorting.
From Equations Require Import Equations.

(** ** Game objects *)

(** The bounding box of a game object: a position and a size. *)
Record BoundingBox := {
  x : Z;
  y : Z;
  width : Z;
  height : Z
}.

(** Modelled from the spec: the class [Bug] ([./Bug]) is not part of the
    sources.  A bug carries a bounding box, a point value and an alive flag;
    [isAlive] and [getPoints] read them and [setDead] clears the flag. *)
Record Bug := {
  boundingBox : BoundingBox;
  points : Z;
  alive : bool
}.

Definition isAlive (bug : Bug) : bool := alive bug.
Definition getPoints (bug : Bug) : Z := points bug.
Definition setDead (bug : Bug) : Bug :=
  {| boundingBox := boundingBox bug; points := points bug; alive := false |}.

(** A piece of food: only its existence matters to the controller. *)
Record Food := { food_x : Z; food_y : Z }.

(** What the game's object array can hold.  [GPoint value px py] is
    [new Point(canvas, context, value, px, py)], the floating score marker. *)
Inductive GameObject :=
| GCursor
| GFood (food : Food)
| GBug (bug : Bug)
| GPoint (value px py : Z).

(** [gameObject instanceof Bug] *)
Definition instanceof_Bug (gameObject : GameObject) : bool :=
  match gameObject with GBug _ => true | _ => false end.

(** ** The engine *)

(** Modelled from the spec: the base class [Game] is not part of the
    sources.  Its run mode has three values. *)
Inductive RunMode := NotStarted | Running | Paused.

Global Instance RunMode_eq_dec : EqDecision RunMode.
Proof. solve_decision. Defined.

(** The calls the controller makes into [Game]. *)
Inductive GameCall := CallStart | CallPause | CallResume.

(** What [../engine] and the managers provide and the sources do not show.
    Nothing is assumed of these functions here; the properties that need a
    contract state it as a hypothesis.
    - [isOverlappingPoint box px py] is the hit test of a bounding box;
    - [Game_start], [Game_pause], [Game_resume] are the effect of [start()],
      [pause()] and [resume()] on the run mode;
    - [getRandomNumber k lo hi] is the result of the [k]-th call made to the
      non-deterministic part of the engine when that call is
      [getRandomNumber(lo, hi)];
    - [spawn_boundingBox k], [spawn_points k] are the box and the point value
      of the bug that [BugManager.spawn] builds when it is the [k]-th call;
    - [FoodManager_generate k n] is the result of [generate(n)] when it is
      the [k]-th call. *)
Class Engine := {
  isOverlappingPoint : BoundingBox → Z → Z → bool;
  Game_start : RunMode → RunMode;
  Game_pause : RunMode → RunMode;
  Game_resume : RunMode → RunMode;
  getRandomNumber : nat → Z → Z → Z;
  spawn_boundingBox : nat → BoundingBox;
  spawn_points : nat → Z;
  FoodManager_generate : nat → Z → list Food
}.

(** ** The browser *)

(** The page elements the handlers write to: the text of [#score] and
    [#time], the [src] attribute of [#pause-resume-button], and whether the
    class list of [#welcome-section] and [#game-section] holds ["hidden"].
    The elements are taken to be present. *)
Record Document := {
  score_innerHTML : string;
  time_innerHTML : string;
  pause_resume_button_src : string;
  welcome_section_hidden : bool;
  game_section_hidden : bool
}.

(** The two closures handed to [setTimeout]. *)
Inductive Callback := cb_spawnBugRandomly | cb_startTime.

Record Timer := { callback : Callback; delay : Z }.

(** ** The state of a [BugTap] object and of what it writes to *)

Record BugTap := {
  (* fields of Game *)
  runMode : RunMode;
  gameObjects : list GameObject;
  (* fields of BugTap *)
  _time : Z;
  _score : Z;
  _food : list Food;
  (* the food handed to BugManager.receiveFood *)
  bugManager_food : list Food;
  (* the key-value store behind addToStore and clearStore *)
  store : gmap string string;
  (* the page *)
  document : Document;
  (* timers set by setTimeout that have not fired yet, oldest first *)
  timers : list Timer;
  (* one entry per call of _soundPoint.play(), oldest first; the entry is
     the index, in gameObjects, of the object the loop was visiting *)
  soundPoint_plays : list nat;
  (* the calls made to start(), pause() and resume(), oldest first *)
  calls : list GameCall;
  (* how many calls were made to the non-deterministic engine functions *)
  env_calls : nat
}.

Definition set_runMode (v : RunMode) (g : BugTap) : BugTap :=
  {| runMode := v; gameObjects := gameObjects g; _time := _time g;
     _score := _score g; _food := _food g;
     bugManager_food := bugManager_food g; store := store g;
     document := document g; timers := timers g;
     soundPoint_plays := soundPoint_plays g; calls := calls g;
     env_calls := env_calls g |}.

Definition set_gameObjects (v : list GameObject) (g : BugTap) : BugTap :=
  {| runMode := runMode g; gameObjects := v; _time := _time g;
     _score := _score g; _food := _food g;
     bugManager_food := bugManager_food g; store := store g;
     document := document g; timers := timers g;
     soundPoint_plays := soundPoint_plays g; calls := calls g;
     env_calls := env_calls g |}.

Definition set__time (v : Z) (g : BugTap) : BugTap :=
  {| runMode := runMode g; gameObjects := gameObjects g; _time := v;
     _score := _score g; _food := _food g;
     bugManager_food := bugManager_food g; store := store g;
     document := document g; timers := timers g;
     soundPoint_plays := soundPoint_plays g; calls := calls g;
     env_calls := env_calls g |}.

Definition set__score (v : Z) (g : BugTap) : BugTap :=
  {| runMode := runMode g; gameObjects := gameObjects g; _time := _time g;
     _score := v; _food := _food g;
     bugManager_food := bugManager_food g; store := store g;
     document := document g; timers := timers g;
     soundPoint_plays := soundPoint_plays g; calls := calls g;
     env_calls := env_calls g |}.

Definition set__food (v : list Food) (g : BugTap) : BugTap :=
  {| runMode := runMode g; gameObjects := gameObjects g; _time := _time g;
     _score := _score g; _food := v;
     bugManager_food := bugManager_food g; store := store g;
     document := document g; timers := timers g;
     soundPoint_plays := soundPoint_plays g; calls := calls g;
     env_calls := env_calls g |}.

Definition set_bugManager_food (v : list Food) (g : BugTap) : BugTap :=
  {| runMode := runMode g; gameObjects := gameObjects g; _time := _time g;
     _score := _score g; _food := _food g;
     bugManager_food := v; store := store g;
     document := document g; timers := timers g;
     soundPoint_plays := soundPoint_plays g; calls := calls g;
     env_calls := env_calls g |}.

Definition set_store (v : gmap string string) (g : BugTap) : BugTap :=
  {| runMode := runMode g; gameObjects := gameObjects g; _time := _time g;
     _score := _score g; _food := _food g;
     bugManager_food := bugManager_food g; store := v;
     document := document g; timers := timers g;
     soundPoint_plays := soundPoint_plays g; calls := calls g;
     env_calls := env_calls g |}.

Definition set_document (v : Document) (g : BugTap) : BugTap :=
  {| runMode := runMode g; gameObjects := gameObjects g; _time := _time g;
     _score := _score g; _food := _food g;
     bugManager_food := bugManager_food g; store := store g;
     document := v; timers := timers g;
     soundPoint_plays := soundPoint_plays g; calls := calls g;
     env_calls := env_calls g |}.

Definition set_timers (v : list Timer) (g : BugTap) : BugTap :=
  {| runMode := runMode g; gameObjects := gameObjects g; _time := _time g;
     _score := _score g; _food := _food g;
     bugManager_food := bugManager_food g; store := store g;
     document := document g; timers := v;
     soundPoint_plays := soundPoint_plays g; calls := calls g;
     env_calls := env_calls g |}.

Definition set_soundPoint_plays (v : list nat) (g : BugTap) : BugTap :=
  {| runMode := runMode g; gameObjects := gameObjects g; _time := _time g;
     _score := _score g; _food := _food g;
     bugManager_food := bugManager_food g; store := store g;
     document := document g; timers := timers g;
     soundPoint_plays := v; calls := calls g;
     env_calls := env_calls g |}.

Definition set_calls (v : list GameCall) (g : BugTap) : BugTap :=
  {| runMode := runMode g; gameObjects := gameObjects g; _time := _time g;
     _score := _score g; _food := _food g;
     bugManager_food := bugManager_food g; store := store g;
     document := document g; timers := timers g;
     soundPoint_plays := soundPoint_plays g; calls := v;
     env_calls := env_calls g |}.

Definition set_env_calls (v : nat) (g : BugTap) : BugTap :=
  {| runMode := runMode g; gameObjects := gameObjects g; _time := _time g;
     _score := _score g; _food := _food g;
     bugManager_food := bugManager_food g; store := store g;
     document := document g; timers := timers g;
     soundPoint_plays := soundPoint_plays g; calls := calls g;
     env_calls := v |}.

(** Writes to the page. *)
Definition set_score_innerHTML (s : string) (d : Document) : Document :=
  {| score_innerHTML := s; time_innerHTML := time_innerHTML d;
     pause_resume_button_src := pause_resume_button_src d;
     welcome_section_hidden := welcome_section_hidden d;
     game_section_hidden := game_section_hidden d |}.

Definition set_time_innerHTML (s : string) (d : Document) : Document :=
  {| score_innerHTML := score_innerHTML d; time_innerHTML := s;
     pause_resume_button_src := pause_resume_button_src d;
     welcome_section_hidden := welcome_section_hidden d;
     game_section_hidden := game_section_hidden d |}.

Definition set_pause_resume_button_src (s : string) (d : Document) : Document :=
  {| score_innerHTML := score_innerHTML d; time_innerHTML := time_innerHTML d;
     pause_resume_button_src := s;
     welcome_section_hidden := welcome_section_hidden d;
     game_section_hidden := game_section_hidden d |}.

Definition set_welcome_section_hidden (b : bool) (d : Document) : Document :=
  {| score_innerHTML := score_innerHTML d; time_innerHTML := time_innerHTML d;
     pause_resume_button_src := pause_resume_button_src d;
     welcome_section_hidden := b;
     game_section_hidden := game_section_hidden d |}.

Definition set_game_section_hidden (b : bool) (d : Document) : Document :=
  {| score_innerHTML := score_innerHTML d; time_innerHTML := time_innerHTML d;
     pause_resume_button_src := pause_resume_button_src d;
     welcome_section_hidden := welcome_section_hidden d;
     game_section_hidden := b |}.

(** [n.toString()] and [`${n}`] for an integer [n]. *)
Definition toString (n : Z) : string := pretty n.
Global Arguments toString : simpl never.

(** ** The class [BugTap] *)

Section BugTap.
Context `{E : Engine}.

Definition AMOUNT_OF_FOOD : Z := 10.
Definition MIN_BUGS_TO_SPAWN : Z := 1.
Definition MAX_BUGS_TO_SPAWN : Z := 3.
Definition MIN_SPAWN_INTERVAL : Z := 800.
Definition MAX_SPAWN_INTERVAL : Z := 1500.

(** *** What the class inherits from [Game] and imports from the engine *)

(** Modelled from the spec: [Game.isRunning], [Game.isPaused] test the run
    mode; [Game.start], [Game.pause], [Game.resume] move it as the engine
    says and are recorded in [calls]. *)
Definition isRunning (g : BugTap) : bool := bool_decide (runMode g = Running).
Definition isPaused (g : BugTap) : bool := bool_decide (runMode g = Paused).

Definition start (g : BugTap) : BugTap :=
  set_calls (calls g ++ [CallStart]) (set_runMode (Game_start (runMode g)) g).
Definition pause (g : BugTap) : BugTap :=
  set_calls (calls g ++ [CallPause]) (set_runMode (Game_pause (runMode g)) g).
Definition resume (g : BugTap) : BugTap :=
  set_calls (calls g ++ [CallResume]) (set_runMode (Game_resume (runMode g)) g).

(** Modelled from the spec: [Game.addGameObject], [Game.addGameObjects]
    insert at the end of the active collection, which [Game.getGameObjects]
    returns in insertion order. *)
Definition addGameObject (o : GameObject) (g : BugTap) : BugTap :=
  set_gameObjects (gameObjects g ++ [o]) g.
Definition addGameObjects (os : list GameObject) (g : BugTap) : BugTap :=
  set_gameObjects (gameObjects g ++ os) g.
Definition getGameObjects (g : BugTap) : list GameObject := gameObjects g.

(** Modelled from the spec: [addToStore] overwrites one key of the
    persistent store, [clearStore] empties it. *)
Definition addToStore (key value : string) (g : BugTap) : BugTap :=
  set_store (<[key := value]> (store g)) g.
Definition clearStore (g : BugTap) : BugTap := set_store ∅ g.

(** [setTimeout(cb, ms)]: one more pending timer. *)
Definition setTimeout (cb : Callback) (ms : Z) (g : BugTap) : BugTap :=
  set_timers (timers g ++ [{| callback := cb; delay := ms |}]) g.

(** [this._soundPoint.play()] while the loop visits index [i]. *)
Definition soundPoint_play (i : nat) (g : BugTap) : BugTap :=
  set_soundPoint_plays (soundPoint_plays g ++ [i]) g.

(** One more call to a non-deterministic engine function. *)
Definition env_called (g : BugTap) : BugTap := set_env_calls (S (env_calls g)) g.

(** Modelled from the spec: [BugManager.spawn] builds a bug that is alive. *)
Definition BugManager_spawn (k : nat) : Bug :=
  {| boundingBox := spawn_boundingBox k; points := spawn_points k; alive := true |}.

Definition BugManager_receiveFood (food : list Food) (g : BugTap) : BugTap :=
  set_bugManager_food food g.

(** *** The constructor *)

(** [new BugTap(canvasId)] on a page [page], with [localStorage] what the
    persistent store holds when the page loads.  [super(canvasId)] leaves the
    game not started with no game object; the cursor is added, the handlers
    are registered (see [dispatch] below) and the store is cleared. *)
Definition new_BugTap (page : Document) (localStorage : gmap string string) : BugTap :=
  let g := {| runMode := NotStarted; gameObjects := []; _time := 0;
              _score := 0; _food := []; bugManager_food := [];
              store := localStorage; document := page; timers := [];
              soundPoint_plays := []; calls := []; env_calls := 0 |} in
  let cursor := GCursor in
  let g := addGameObject cursor g in
  clearStore g.

(** *** [_initFood] *)

Definition _initFood (g : BugTap) : BugTap :=
  let g := set__food (FoodManager_generate (env_calls g) AMOUNT_OF_FOOD)
             (env_called g) in
  let g := BugManager_receiveFood (_food g) g in
  addGameObjects (GFood <$> _food g) g.

(** *** [_pauseButtonOnClick] *)

Definition _pauseButtonOnClick (g : BugTap) : BugTap :=
  let g := if isPaused g then resume g else pause g in
  if isPaused g then
    set_document
      (set_pause_resume_button_src "assets/graphics/play.png" (document g)) g
  else if isRunning g then
    set_document
      (set_pause_resume_button_src "assets/graphics/pause.png" (document g)) g
  else g.

(** The [keydown] listener of the document. *)
Definition document_onKeyDown (code : string) (g : BugTap) : BugTap :=
  if bool_decide (code = "Space") then _pauseButtonOnClick g else g.

(** *** [_canvasOnMouseClick] *)

(** The statements of the loop body after the three [continue] guards, for
    the bug [bug] found at index [i] of the game objects. *)
Definition scoreBug (i : nat) (bug : Bug) (g : BugTap) : BugTap :=
  let g := soundPoint_play i g in
  let points := getPoints bug in
  let g := set__score (_score g + points) g in
  let point := GPoint points (x (boundingBox bug)) (y (boundingBox bug)) in
  let g := addGameObject point g in
  let g := set_document
             (set_score_innerHTML ("Score: " +:+ toString (_score g))
                (document g)) g in
  let g := addToStore "score" (toString (_score g)) g in
  (* gameObject.setDead() mutates the object held at index i *)
  set_gameObjects (<[i := GBug (setDead bug)]> (gameObjects g)) g.

(** The loop body for the object [gameObject] found at index [i]. *)
Definition visit (offsetX offsetY : Z) (i : nat) (gameObject : GameObject)
    (g : BugTap) : BugTap :=
  match gameObject with
  | GBug bug =>
      if negb (isOverlappingPoint (boundingBox bug) offsetX offsetY) then g
      else if negb (isAlive bug) then g
      else scoreBug i bug g
  | _ => g
  end.

(** Is the object one the loop body scores? *)
Definition is_target (offsetX offsetY : Z) (o : GameObject) : bool :=
  match o with
  | GBug bug => isOverlappingPoint (boundingBox bug) offsetX offsetY && isAlive bug
  | _ => false
  end.

(** The variant of the loop: the loop body appends to the array it iterates
    over, so the distance to the end of the array alone does not decrease. *)
Definition loop_variant (offsetX offsetY : Z) (i : nat) (g : BugTap) : nat :=
  2 * length (filter (λ o, is_target offsetX offsetY o = true)
                (drop i (gameObjects g)))
  + (length (gameObjects g) - i).

(** [for (const gameObject of this.getGameObjects()) { ... }] from index [i]
    on.  The array iterator reads the length of the array at every step, so
    the objects the body appends are visited too.  (Were [getGameObjects] to
    return a copy, the loop would stop at the end of the copy; the markers
    being no bugs, the result is the same: see [forOf_gameObjects_outcome].) *)
Equations? forOf_gameObjects (offsetX offsetY : Z) (i : nat) (g : BugTap)
    : BugTap by wf (loop_variant offsetX offsetY i g) lt :=
  forOf_gameObjects offsetX offsetY i g with Equations.Prop.Logic.inspect (getGameObjects g !! i) := {
    | exist _ (Some gameObject) Hi =>
        forOf_gameObjects offsetX offsetY (S i)
          (visit offsetX offsetY i gameObject g)
    | exist _ None _ => g }.
Proof.
  unfold getGameObjects in Hi.
  pose proof (lookup_lt_Some _ _ _ Hi) as Hlt.
  unfold loop_variant at 2. rewrite (drop_S _ _ _ Hi), filter_cons.
  destruct (is_target offsetX offsetY gameObject) eqn:Ht.
  - destruct gameObject as [| |bug|]; simpl in Ht; try done.
    apply andb_true_iff in Ht as [Hov Hal].
    rewrite decide_True by done.
    unfold loop_variant, visit, scoreBug. rewrite Hov, Hal. simpl.
    rewrite length_insert, length_app. simpl.
    rewrite drop_insert_lt by lia.
    rewrite drop_app_le by lia.
    rewrite filter_app. simpl. rewrite length_app. simpl. lia.
  - rewrite decide_False by congruence.
    assert (visit offsetX offsetY i gameObject g = g) as ->.
    { destruct gameObject as [| |bug|]; simpl in *; try done.
      destruct (isOverlappingPoint _ _ _); simpl in *; [|done].
      by rewrite Ht. }
    unfold loop_variant. lia.
Qed.

Definition _canvasOnMouseClick (offsetX offsetY : Z) (g : BugTap) : BugTap :=
  if negb (isRunning g) then g
  else forOf_gameObjects offsetX offsetY 0 g.

(** *** [_spawnBug] and [_spawnBugsRandomly] *)

Definition _spawnBug (g : BugTap) : BugTap :=
  let bug := BugManager_spawn (env_calls g) in
  addGameObject (GBug bug) (env_called g).

(** [Array(n).fill(null)]: an array of [n] nulls, or a [RangeError] ([None])
    when [n] is not a valid array length. *)
Definition Array_fill_null (n : Z) : option (list unit) :=
  if bool_decide (0 ≤ n < 2 ^ 32)%Z then Some (replicate (Z.to_nat n) ())
  else None.

(** The closure [spawnBugRandomly]: one spawn cycle. *)
Definition spawnBugRandomly (g : BugTap) : option BugTap :=
  g ← (if isRunning g && bool_decide (0 < length (_food g)) then
         let numBugsToSpawn :=
           getRandomNumber (env_calls g) MIN_BUGS_TO_SPAWN MAX_BUGS_TO_SPAWN in
         let g := env_called g in
         arr ← Array_fill_null numBugsToSpawn;
         Some (foldl (λ g _, _spawnBug g) g arr)
       else Some g);
  let spawnInterval :=
    getRandomNumber (env_calls g) MIN_SPAWN_INTERVAL MAX_SPAWN_INTERVAL in
  let g := env_called g in
  Some (setTimeout cb_spawnBugRandomly spawnInterval g).

Definition _spawnBugsRandomly (g : BugTap) : option BugTap := spawnBugRandomly g.

(** *** [_startTimeElapsed] *)

Definition formatSeconds (seconds : Z) : string :=
  let minutes := (seconds `div` 60)%Z in
  let remainingSeconds := (seconds `rem` 60)%Z in
  let paddedSeconds :=
    if bool_decide (remainingSeconds < 10)%Z
    then "0" +:+ toString remainingSeconds
    else toString remainingSeconds in
  toString minutes +:+ ":" +:+ paddedSeconds.

(** The closure [startTime]: one tick. *)
Definition startTime (g : BugTap) : BugTap :=
  let g :=
    if negb (isPaused g) then
      let g := set__time (_time g + 1) g in
      let g := set_document
                 (set_time_innerHTML ("Time: " +:+ formatSeconds (_time g))
                    (document g)) g in
      addToStore "time" (toString (_time g)) g
    else g in
  setTimeout cb_startTime 1000 g.

Definition _startTimeElapsed (g : BugTap) : BugTap := startTime g.

(** *** [_startButtonOnClick] *)

Definition _startButtonOnClick (g : BugTap) : option BugTap :=
  let g := start g in
  let g := _initFood g in
  g ← _spawnBugsRandomly g;
  let g := _startTimeElapsed g in
  let g := set_document (set_welcome_section_hidden true (document g)) g in
  Some (set_document (set_game_section_hidden false (document g)) g).

(** *** The event loop *)

(** What the browser can deliver to the listeners registered by
    [_initEventHandlers] and to the closures handed to [setTimeout].
    [Timeout i] is the expiry of the pending timer of index [i]. *)
Inductive Event :=
| StartButtonClick
| PauseButtonClick
| KeyDown (code : string)
| MouseDown (offsetX offsetY : Z)
| Timeout (i : nat).

Definition runCallback (cb : Callback) (g : BugTap) : option BugTap :=
  match cb with
  | cb_spawnBugRandomly => spawnBugRandomly g
  | cb_startTime => Some (startTime g)
  end.

(** One event, run to completion.  [None]: the event cannot happen (no such
    timer) or its handler raised. *)
Definition dispatch (e : Event) (g : BugTap) : option BugTap :=
  match e with
  | StartButtonClick => _startButtonOnClick g
  | PauseButtonClick => Some (_pauseButtonOnClick g)
  | KeyDown code => Some (document_onKeyDown code g)
  | MouseDown offsetX offsetY => Some (_canvasOnMouseClick offsetX offsetY g)
  | Timeout i =>
      t ← timers g !! i;
      runCallback (callback t) (set_timers (delete i (timers g)) g)
  end.

Fixpoint run (es : list Event) (g : BugTap) : option BugTap :=
  match es with
  | [] => Some g
  | e :: es => g ← dispatch e g; run es g
  end.

End BugTap.

(** ** The outcome of a tap, in closed form

    What the spec says a tap does, written over the array as it is when the
    tap arrives: every object that is a bug, is alive and contains the point
    is scored, in the order of the array. *)

Section Outcome.
Context `{E : Engine}.

(** What a tap leaves of an object: a scored bug is dead. *)
Definition hit (offsetX offsetY : Z) (o : GameObject) : GameObject :=
  match o with
  | GBug bug => if is_target offsetX offsetY o then GBug (setDead bug) else o
  | _ => o
  end.

(** The score marker a tap creates for an object, if it scores it. *)
Definition marker (offsetX offsetY : Z) (o : GameObject) : option GameObject :=
  match o with
  | GBug bug =>
      if is_target offsetX offsetY o
      then Some (GPoint (getPoints bug) (x (boundingBox bug)) (y (boundingBox bug)))
      else None
  | _ => None
  end.

(** The points a tap earns from an object. *)
Definition target_points (offsetX offsetY : Z) (o : GameObject) : Z :=
  match o with
  | GBug bug => if is_target offsetX offsetY o then getPoints bug else 0
  | _ => 0
  end.

Definition tap_points (offsetX offsetY : Z) (objs : list GameObject) : Z :=
  foldr (λ o acc, target_points offsetX offsetY o + acc)%Z 0%Z objs.

(** The indices of the objects a tap scores, in increasing order, when
    [objs] starts at index [i] of the array. *)
Fixpoint targets_from (offsetX offsetY : Z) (i : nat) (objs : list GameObject)
    : list nat :=
  match objs with
  | [] => []
  | o :: objs =>
      if is_target offsetX offsetY o
      then i :: targets_from offsetX offsetY (S i) objs
      else targets_from offsetX offsetY (S i) objs
  end.

Definition tap_targets (offsetX offsetY : Z) (objs : list GameObject) : list nat :=
  targets_from offsetX offsetY 0 objs.

(** The state after the objects from index [i] on have been scanned. *)
Definition tap_outcome (offsetX offsetY : Z) (i : nat) (g : BugTap) : BugTap :=
  let rest := drop i (gameObjects g) in
  let targets := targets_from offsetX offsetY i rest in
  let score := (_score g + tap_points offsetX offsetY rest)%Z in
  {| runMode := runMode g;
     gameObjects :=
       take i (gameObjects g) ++ (hit offsetX offsetY <$> rest)
         ++ omap (marker offsetX offsetY) rest;
     _time := _time g;
     _score := score;
     _food := _food g;
     bugManager_food := bugManager_food g;
     store :=
       match targets with
       | [] => store g
       | _ => <["score" := toString score]> (store g)
       end;
     document :=
       match targets with
       | [] => document g
       | _ => set_score_innerHTML ("Score: " +:+ toString score) (document g)
       end;
     timers := timers g;
     soundPoint_plays := soundPoint_plays g ++ targets;
     calls := calls g;
     env_calls := env_calls g |}.

(** The tap resolver of the spec. *)
Definition TapResolver (offsetX offsetY : Z) (g : BugTap) : BugTap :=
  if bool_decide (runMode g = Running) then tap_outcome offsetX offsetY 0 g
  else g.

(** *** What a session has scored *)

Definition points_at (objs : list GameObject) (j : nat) : Z :=
  match objs !! j with Some (GBug bug) => points bug | _ => 0%Z end.

Definition sum_points (objs : list GameObject) (js : list nat) : Z :=
  foldr (λ j acc, points_at objs j + acc)%Z 0%Z js.

Definition dead_bug_at (objs : list GameObject) (j : nat) : Prop :=
  ∃ bug, objs !! j = Some (GBug bug) ∧ alive bug = false.

(** The number of score markers among the game objects. *)
Definition is_marker (o : GameObject) : bool :=
  match o with GPoint _ _ _ => true | _ => false end.

Definition count_markers (objs : list GameObject) : nat :=
  length (filter (λ o, is_marker o = true) objs).

(** The bugs that were scored are the dead ones, each was scored once, the
    score is the sum of their point values, and there is one score marker
    for each. *)
Record Scored (g : BugTap) : Prop := {
  Scored_once : NoDup (soundPoint_plays g);
  Scored_dead : ∀ j, j ∈ soundPoint_plays g ↔ dead_bug_at (gameObjects g) j;
  Scored_sum : _score g = sum_points (gameObjects g) (soundPoint_plays g);
  Scored_markers :
    count_markers (gameObjects g) = length (soundPoint_plays g)
}.

(** No bug is worth a negative number of points. *)
Definition points_nonneg (o : GameObject) : Prop :=
  match o with GBug bug => (0 ≤ points bug)%Z | _ => True end.


(** The bugs built by the calls [k], [k+1], ... to [BugManager.spawn]. *)
Definition spawned_from (k n : nat) : list GameObject :=
  (λ k, GBug (BugManager_spawn k)) <$> seq k n.

(** An object that a handler other than the tap resolver adds to the game:
    the cursor, food, or a bug fresh from [BugManager.spawn]. *)
Definition spawned (o : GameObject) : Prop :=
  match o with
  | GBug bug => ∃ k, bug = BugManager_spawn k
  | GPoint _ _ _ => False
  | _ => True
  end.

(** The contract of [getRandomNumber]: an integer within the inclusive
    bounds. *)
Definition RandomRange : Prop :=
  ∀ k lo hi, (lo ≤ hi)%Z → (lo ≤ getRandomNumber k lo hi ≤ hi)%Z.

End Outcome.

(** ** The earlier revision of the class

    The second source file is an earlier [BugTap]: no start button, no score,
    no clock; the constructor creates the cursor and the food and launches
    the spawn loop, whose cycle is gated on [!isPaused()] alone.  Its only
    listener hands the Space key to the engine's [togglePause()] and is left
    out. *)
Module Legacy.
Section Legacy.
Context `{E : Engine}.

Definition initGameObjects (g : BugTap) : BugTap :=
  let cursor := GCursor in
  let food := FoodManager_generate (env_calls g) 8 in
  addGameObjects (cursor :: (GFood <$> food)) (env_called g).

Definition spawnBug (g : BugTap) : BugTap :=
  let bug := BugManager_spawn (env_calls g) in
  addGameObject (GBug bug) (env_called g).

Definition spawnBugRandomly (g : BugTap) : option BugTap :=
  g ← (if negb (isPaused g) then
         let numBugsToSpawn :=
           getRandomNumber (env_calls g) MIN_BUGS_TO_SPAWN MAX_BUGS_TO_SPAWN in
         let g := env_called g in
         arr ← Array_fill_null numBugsToSpawn;
         Some (foldl (λ g _, spawnBug g) g arr)
       else Some g);
  let spawnInterval :=
    getRandomNumber (env_calls g) MIN_SPAWN_INTERVAL MAX_SPAWN_INTERVAL in
  let g := env_called g in
  Some (setTimeout cb_spawnBugRandomly spawnInterval g).

Definition spawnBugsRandomly (g : BugTap) : option BugTap := spawnBugRandomly g.

(** The constructor, on a game that [super(canvasId)] left in mode [mode]. *)
Definition new_BugTap (mode : RunMode) (page : Document)
    (localStorage : gmap string string) : option BugTap :=
  let g := {| runMode := mode; gameObjects := []; _time := 0;
              _score := 0; _food := []; bugManager_food := [];
              store := localStorage; document := page; timers := [];
              soundPoint_plays := []; calls := []; env_calls := 0 |} in
  let g := initGameObjects g in
  spawnBugsRandomly g.

End Legacy.
End Legacy.

(** ** A concrete engine

    Used to run the definitions on concrete inputs. *)
Module Demo.

(** Modelled from the spec: the hit test is point-in-rectangle. *)
Definition rectangle_contains (b : BoundingBox) (px py : Z) : bool :=
  bool_decide (x b ≤ px ≤ x b + width b)%Z
  && bool_decide (y b ≤ py ≤ y b + height b)%Z.

(** The transitions of the run mode that the spec defines; the others leave
    the mode as it is. *)
Definition demo_start (m : RunMode) : RunMode :=
  match m with NotStarted => Running | m => m end.
Definition demo_pause (m : RunMode) : RunMode :=
  match m with Running => Paused | m => m end.
Definition demo_resume (m : RunMode) : RunMode :=
  match m with Paused => Running | m => m end.

(** Bugs of 20 by 20 spawned 5 apart, worth 1, 3 or 5 points; random numbers
    that walk through the requested interval. *)
Definition engine : Engine := {|
  isOverlappingPoint := rectangle_contains;
  Game_start := demo_start;
  Game_pause := demo_pause;
  Game_resume := demo_resume;
  getRandomNumber k lo hi := (lo + Z.of_nat k `mod` (hi - lo + 1))%Z;
  spawn_boundingBox k :=
    {| x := 5 * Z.of_nat k; y := 0; width := 20; height := 20 |};
  spawn_points k := (1 + 2 * (Z.of_nat k `mod` 3))%Z;
  FoodManager_generate k n :=
    (λ i, {| food_x := Z.of_nat i; food_y := Z.of_nat k |}) <$> seq 0 (Z.to_nat n)
|}.

Definition page : Document :=
  {| score_innerHTML := "Score: 0"; time_innerHTML := "Time: 0:00";
     pause_resume_button_src := "assets/graphics/pause.png";
     welcome_section_hidden := false; game_section_hidden := true |}.

(** What an earlier session left in the persistent store. *)
Definition localStorage : gmap string string := {["score" := "40"]}.

(** The game as constructed, after the start click (two bugs that overlap
    are spawned, at indices 11 and 12), after a tap on both bugs, and after
    the start click and a pause. *)
Definition g0 : BugTap := new_BugTap page localStorage.

Definition started : BugTap :=
  Eval vm_compute in default g0 (@run engine [StartButtonClick] g0).

Definition tapped : BugTap :=
  Eval vm_compute in
    default g0 (@run engine [StartButtonClick; MouseDown 16 3] g0).

Definition paused : BugTap :=
  Eval vm_compute in
    default g0 (@run engine [StartButtonClick; PauseButtonClick] g0).

(** A session with three taps at the same point, and the game it ends in. *)
Definition session : list Event :=
  [StartButtonClick; MouseDown 16 3; MouseDown 16 3; Timeout 1; MouseDown 16 3].

Definition ended : BugTap :=
  Eval vm_compute in default g0 (@run engine session g0).

(** The game after a second start click. *)
Definition restarted : BugTap :=
  Eval vm_compute in
    default g0
      (@run engine [StartButtonClick; MouseDown 16 3; StartButtonClick] g0).



(** An engine as above but for a [getRandomNumber] that breaks its contract
    and returns -1 whatever the bounds. *)
Definition broken_engine : Engine := {|
  isOverlappingPoint := rectangle_contains;
  Game_start := demo_start;
  Game_pause := demo_pause;
  Game_resume := demo_resume;
  getRandomNumber k lo hi := (-1)%Z;
  spawn_boundingBox := @spawn_boundingBox engine;
  spawn_points := @spawn_points engine;
  FoodManager_generate := @FoodManager_generate engine
|}.

End Demo.


(** ** Further notions: the timer loops and what the page and the store show *)

Global Instance Callback_eq_dec : EqDecision Callback.
Proof. solve_decision. Defined.

Global Instance GameCall_eq_dec : EqDecision GameCall.
Proof. solve_decision. Defined.

Section Notions.
Context `{E : Engine}.

(** How many pending timers will run the callback [cb]. *)
Definition count_callback (cb : Callback) (ts : list Timer) : nat :=
  length (filter (λ t, callback t = cb) ts).

(** How many times [start()] was called. *)
Definition count_starts (cs : list GameCall) : nat :=
  length (filter (λ c, c = CallStart) cs).

(** A timer as the two loops set it: one second for the tick, a drawn delay
    for the spawn cycle. *)
Definition set_by_a_loop (t : Timer) : Prop :=
  match callback t with
  | cb_startTime => delay t = 1000%Z
  | cb_spawnBugRandomly =>
      ∃ k, delay t = getRandomNumber k MIN_SPAWN_INTERVAL MAX_SPAWN_INTERVAL
  end.

(** What the store should hold under [key] for the counters of [g]: the
    score once a bug was scored, the time once the clock has moved. *)
Definition stored_for (g : BugTap) (key : string) : option string :=
  if decide (key = "score") then
    if decide (soundPoint_plays g = []) then None
    else Some (toString (_score g))
  else if decide (key = "time") then
    if decide (_time g = 0%Z) then None else Some (toString (_time g))
  else None.

(** What [#score] and [#time] should show for the counters of [g], on a
    page that was loaded as [page]. *)
Definition score_text_for (page : Document) (g : BugTap) : string :=
  if decide (soundPoint_plays g = []) then score_innerHTML page
  else "Score: " +:+ toString (_score g).

Definition time_text_for (page : Document) (g : BugTap) : string :=
  if decide (_time g = 0%Z) then time_innerHTML page
  else "Time: " +:+ formatSeconds (_time g).

(** The page and the store mirror the counters. *)
Record Mirrored (page : Document) (g : BugTap) : Prop := {
  Mirrored_time_nonneg : (0 ≤ _time g)%Z;
  Mirrored_store : ∀ key, store g !! key = stored_for g key;
  Mirrored_score_text :
    score_innerHTML (document g) = score_text_for page g;
  Mirrored_time_text :
    time_innerHTML (document g) = time_text_for page g
}.

(** Two states that show the same to the page and the store. *)
Definition same_view (g' g : BugTap) : Prop :=
  _time g' = _time g ∧ _score g' = _score g
  ∧ soundPoint_plays g' = soundPoint_plays g ∧ store g' = store g
  ∧ score_innerHTML (document g') = score_innerHTML (document g)
  ∧ time_innerHTML (document g') = time_innerHTML (document g).

(** One pair of loops per call of [start()], each timer as its loop set it. *)
Record Looping (g : BugTap) : Prop := {
  Looping_spawn :
    count_callback cb_spawnBugRandomly (timers g) = count_starts (calls g);
  Looping_tick :
    count_callback cb_startTime (timers g) = count_starts (calls g);
  Looping_delays : Forall set_by_a_loop (timers g)
}.

(** The bug manager holds the food of the game, and the food of the game is
    among the game objects. *)
Record Fed (g : BugTap) : Prop := {
  Fed_manager : bugManager_food g = _food g;
  Fed_objects : ∀ food, food ∈ _food g → GFood food ∈ gameObjects g;
  Fed_generated :
    _food g = [] ∨ ∃ k, _food g = FoodManager_generate k AMOUNT_OF_FOOD
}.

(** An object as a later state may hold it: the same, or the same bug dead. *)
Definition same_or_killed (o o' : GameObject) : Prop :=
  o' = o ∨ ∃ bug, o = GBug bug ∧ alive bug = true ∧ o' = GBug (setDead bug).


End Notions.

(** * Properties *)

(** ** The scan of the tap resolver *)

Section Scan.
Context `{E : Engine}.
Implicit Types (g : BugTap) (o : GameObject) (objs : list GameObject).

Lemma is_target_spec offsetX offsetY o :
  is_target offsetX offsetY o = true ↔
  ∃ bug, o = GBug bug ∧ isAlive bug = true
         ∧ isOverlappingPoint (boundingBox bug) offsetX offsetY = true.
Proof.
  destruct o as [| |bug|]; simpl; try (split; [done | by intros (? & ? & _)]).
  rewrite andb_true_iff. split.
  - intros [??]. by exists bug.
  - intros (? & [= <-] & ? & ?). done.
Qed.

Lemma visit_skip offsetX offsetY i o g :
  is_target offsetX offsetY o = false → visit offsetX offsetY i o g = g.
Proof.
  destruct o as [| |bug|]; simpl; try done.
  destruct (isOverlappingPoint _ _ _); simpl; [|done].
  by intros ->.
Qed.

Lemma visit_target offsetX offsetY i bug g :
  is_target offsetX offsetY (GBug bug) = true →
  visit offsetX offsetY i (GBug bug) g = scoreBug i bug g.
Proof. simpl. by intros [-> ->]%andb_true_iff. Qed.

Lemma targets_from_nil offsetX offsetY i objs :
  targets_from offsetX offsetY i objs = [] →
  tap_points offsetX offsetY objs = 0%Z
  ∧ hit offsetX offsetY <$> objs = objs
  ∧ omap (marker offsetX offsetY) objs = [].
Proof.
  revert i. induction objs as [|o objs IH]; intros i; [done|].
  cbn [targets_from]. destruct (is_target offsetX offsetY o) eqn:Ht; [done|].
  intros (Hp & Hh & Hm)%IH. cbn [tap_points foldr fmap list_fmap omap list_omap].
  fold (tap_points offsetX offsetY objs).
  assert (hit offsetX offsetY o = o ∧ marker offsetX offsetY o = None
          ∧ target_points offsetX offsetY o = 0%Z) as (-> & -> & ->).
  { destruct o; simpl in *; rewrite ?Ht; done. }
  fold (omap (marker offsetX offsetY) objs). rewrite Hm, Hp.
  change (list_fmap _ _ ?f ?l) with (f <$> l). rewrite Hh. done.
Qed.

(** The markers that the loop appends are not bugs: the scan passes them. *)
Lemma targets_from_snoc_point offsetX offsetY i objs v px py :
  targets_from offsetX offsetY i (objs ++ [GPoint v px py])
  = targets_from offsetX offsetY i objs.
Proof.
  revert i. induction objs as [|o objs IH]; intros i; simpl; [done|].
  by rewrite IH.
Qed.

Lemma tap_points_snoc_point offsetX offsetY objs v px py :
  tap_points offsetX offsetY (objs ++ [GPoint v px py])
  = tap_points offsetX offsetY objs.
Proof.
  unfold tap_points. rewrite foldr_app. simpl. done.
Qed.

Lemma omap_marker_snoc_point offsetX offsetY objs v px py :
  omap (marker offsetX offsetY) (objs ++ [GPoint v px py])
  = omap (marker offsetX offsetY) objs.
Proof. rewrite omap_app. simpl. by rewrite app_nil_r. Qed.

Lemma tap_outcome_end offsetX offsetY i g :
  gameObjects g !! i = None → tap_outcome offsetX offsetY i g = g.
Proof.
  intros Hi%lookup_ge_None. unfold tap_outcome.
  rewrite drop_ge, take_ge by done. simpl. rewrite !app_nil_r, Z.add_0_r.
  by destruct g.
Qed.

Lemma tap_outcome_skip offsetX offsetY i o g :
  gameObjects g !! i = Some o → is_target offsetX offsetY o = false →
  tap_outcome offsetX offsetY i g = tap_outcome offsetX offsetY (S i) g.
Proof.
  intros Hi Ht. unfold tap_outcome.
  rewrite (drop_S _ _ _ Hi), (take_S_r _ _ _ Hi).
  cbn [targets_from tap_points foldr fmap list_fmap omap list_omap].
  fold (tap_points offsetX offsetY (drop (S i) (gameObjects g))).
  assert (hit offsetX offsetY o = o ∧ marker offsetX offsetY o = None
          ∧ target_points offsetX offsetY o = 0%Z) as (-> & -> & ->).
  { destruct o; simpl in *; rewrite ?Ht; done. }
  rewrite Ht, Z.add_0_l, <- app_assoc. done.
Qed.

Lemma tap_outcome_hit offsetX offsetY i bug g :
  gameObjects g !! i = Some (GBug bug) →
  is_target offsetX offsetY (GBug bug) = true →
  tap_outcome offsetX offsetY i g
  = tap_outcome offsetX offsetY (S i) (scoreBug i bug g).
Proof.
  intros Hi Ht. pose proof (lookup_lt_Some _ _ _ Hi) as Hlt.
  unfold tap_outcome at 2. unfold scoreBug.
  cbn -[is_target tap_points targets_from hit marker].
  rewrite drop_insert_lt, drop_app_le, take_insert_lt, take_app_le by lia.
  rewrite targets_from_snoc_point, tap_points_snoc_point,
    omap_marker_snoc_point, fmap_app.
  rewrite (take_S_r _ _ _ Hi), insert_app_r_alt by (rewrite length_take; lia).
  replace (i - length (take i (gameObjects g))) with 0
    by (rewrite length_take; lia).
  unfold tap_outcome. rewrite (drop_S _ _ _ Hi).
  cbn [targets_from tap_points foldr fmap list_fmap omap list_omap].
  fold (tap_points offsetX offsetY (drop (S i) (gameObjects g))).
  assert (hit offsetX offsetY (GBug bug) = GBug (setDead bug)
          ∧ marker offsetX offsetY (GBug bug)
            = Some (GPoint (getPoints bug) (x (boundingBox bug)) (y (boundingBox bug)))
          ∧ target_points offsetX offsetY (GBug bug) = getPoints bug)
    as (-> & -> & ->).
  { unfold hit, marker, target_points. by rewrite Ht. }
  rewrite Ht.
  destruct (targets_from offsetX offsetY (S i) (drop (S i) (gameObjects g)))
    as [|j js] eqn:Hts.
  - apply targets_from_nil in Hts as (Hp & _ & _). rewrite Hp, !Z.add_0_r.
    f_equal; [|by rewrite app_nil_r]. simpl. rewrite <- !app_assoc. done.
  - f_equal.
    + simpl. rewrite <- !app_assoc. done.
    + lia.
    + rewrite insert_insert_eq. f_equal. f_equal. lia.
    + unfold set_score_innerHTML. simpl. do 3 f_equal. lia.
    + by rewrite <- app_assoc.
Qed.

(** The loop of the handler, which iterates over the array while it appends
    to it, computes the outcome the spec describes over the array as it was. *)
Lemma forOf_gameObjects_outcome offsetX offsetY i g :
  forOf_gameObjects offsetX offsetY i g = tap_outcome offsetX offsetY i g.
Proof.
  funelim (forOf_gameObjects offsetX offsetY i g).
  - unfold getGameObjects in *.
    destruct (is_target offsetX offsetY gameObject) eqn:Ht.
    + destruct (proj1 (is_target_spec _ _ _) Ht) as (bug & -> & _).
      rewrite (tap_outcome_hit _ _ _ _ _ Hi Ht).
      rewrite visit_target in * by done. done.
    + rewrite (tap_outcome_skip _ _ _ _ _ Hi Ht).
      rewrite visit_skip in * by done. done.
  - unfold getGameObjects in *. by rewrite tap_outcome_end.
Qed.

Lemma _canvasOnMouseClick_TapResolver offsetX offsetY g :
  _canvasOnMouseClick offsetX offsetY g = TapResolver offsetX offsetY g.
Proof.
  unfold _canvasOnMouseClick, TapResolver, isRunning.
  case_bool_decide; simpl; [|done]. apply forOf_gameObjects_outcome.
Qed.

End Scan.

(** ** What each handler leaves of the state *)

Section Handlers.
Context `{E : Engine}.
Implicit Types (g : BugTap) (o : GameObject) (objs : list GameObject).

Lemma foldl_spawnBug n g :
  foldl (λ g _, _spawnBug g) g (replicate n ())
  = set_env_calls (env_calls g + n)
      (set_gameObjects (gameObjects g ++ spawned_from (env_calls g) n) g).
Proof.
  revert g. induction n as [|n IH]; intros g.
  - unfold spawned_from. simpl. rewrite app_nil_r, Nat.add_0_r. by destruct g.
  - cbn [replicate foldl]. rewrite IH. unfold _spawnBug, addGameObject,
      env_called, spawned_from. simpl. rewrite <- app_assoc. simpl.
    unfold set_env_calls, set_gameObjects. simpl. f_equal. lia.
Qed.

(** A spawn cycle whose guard fails only draws the delay and reschedules. *)
Lemma spawnBugRandomly_idle g :
  isRunning g && bool_decide (0 < length (_food g)) = false →
  spawnBugRandomly g
  = Some (setTimeout cb_spawnBugRandomly
            (getRandomNumber (env_calls g) MIN_SPAWN_INTERVAL MAX_SPAWN_INTERVAL)
            (env_called g)).
Proof. intros Hg. unfold spawnBugRandomly. rewrite Hg. done. Qed.

(** A spawn cycle whose guard holds draws [n], spawns [n] bugs, draws the
    delay and reschedules, provided [n] is a valid array length. *)
Lemma spawnBugRandomly_wave g :
  isRunning g && bool_decide (0 < length (_food g)) = true →
  let n := getRandomNumber (env_calls g) MIN_BUGS_TO_SPAWN MAX_BUGS_TO_SPAWN in
  (0 ≤ n < 2 ^ 32)%Z →
  spawnBugRandomly g
  = Some (setTimeout cb_spawnBugRandomly
            (getRandomNumber (S (env_calls g) + Z.to_nat n)
               MIN_SPAWN_INTERVAL MAX_SPAWN_INTERVAL)
            (set_env_calls (S (S (env_calls g) + Z.to_nat n))
               (set_gameObjects
                  (gameObjects g ++ spawned_from (S (env_calls g)) (Z.to_nat n))
                  g))).
Proof.
  intros Hg n Hn. unfold spawnBugRandomly. rewrite Hg. fold n.
  unfold Array_fill_null. rewrite bool_decide_eq_true_2 by done.
  cbn [mbind option_bind]. rewrite foldl_spawnBug. done.
Qed.

(** Under the contract of [getRandomNumber] a wave has 1 to 3 bugs. *)
Lemma spawnBugRandomly_wave_size g :
  RandomRange →
  isRunning g && bool_decide (0 < length (_food g)) = true →
  ∃ g' n,
    spawnBugRandomly g = Some g'
    ∧ Z.of_nat n
      = getRandomNumber (env_calls g) MIN_BUGS_TO_SPAWN MAX_BUGS_TO_SPAWN
    ∧ 1 ≤ n ≤ 3
    ∧ gameObjects g' = gameObjects g ++ spawned_from (S (env_calls g)) n.
Proof.
  intros Hrand Hgo.
  assert (1 ≤ getRandomNumber (env_calls g) MIN_BUGS_TO_SPAWN
                 MAX_BUGS_TO_SPAWN ≤ 3)%Z as Hn by (by apply Hrand).
  rewrite spawnBugRandomly_wave by (done || lia).
  eexists _, (Z.to_nat (getRandomNumber (env_calls g) MIN_BUGS_TO_SPAWN
                          MAX_BUGS_TO_SPAWN)).
  split; [done|]. split; [lia|]. split; [lia|done].
Qed.

(** A spawn cycle that returns has one of the two shapes above. *)
Lemma spawnBugRandomly_Some g g' :
  spawnBugRandomly g = Some g' →
  ∃ n k d,
    g' = setTimeout cb_spawnBugRandomly d
           (set_env_calls k
              (set_gameObjects
                 (gameObjects g ++ spawned_from (S (env_calls g)) n) g))
    ∧ (isRunning g && bool_decide (0 < length (_food g)) = false → n = 0).
Proof.
  destruct (isRunning g && bool_decide (0 < length (_food g))) eqn:Hg.
  - unfold spawnBugRandomly. rewrite Hg.
    destruct (Array_fill_null _) as [arr|] eqn:Harr; [|intros [=]].
    unfold Array_fill_null in Harr. case_bool_decide; [|done].
    injection Harr as <-. cbn [mbind option_bind].
    rewrite foldl_spawnBug. intros [= <-].
    eexists (Z.to_nat _), (S (S (env_calls g) + Z.to_nat _)), _.
    split; [reflexivity|done].
  - rewrite spawnBugRandomly_idle by done. intros [= <-].
    exists 0, (S (env_calls g)), (getRandomNumber (env_calls g)
      MIN_SPAWN_INTERVAL MAX_SPAWN_INTERVAL).
    split; [|done]. unfold spawned_from. simpl. rewrite app_nil_r.
    by destruct g.
Qed.

(** A tick while paused only reschedules. *)
Lemma startTime_paused g :
  runMode g = Paused → startTime g = setTimeout cb_startTime 1000 g.
Proof.
  intros Hm. unfold startTime, isPaused.
  by rewrite bool_decide_eq_true_2.
Qed.

(** A tick while not paused. *)
Lemma startTime_not_paused g :
  runMode g ≠ Paused →
  startTime g
  = setTimeout cb_startTime 1000
      (addToStore "time" (toString (_time g + 1))
         (set_document
            (set_time_innerHTML ("Time: " +:+ formatSeconds (_time g + 1))
               (document g))
            (set__time (_time g + 1) g))).
Proof.
  intros Hm. unfold startTime, isPaused.
  by rewrite bool_decide_eq_false_2.
Qed.

(** The pause toggle writes the run mode, the call log and the page only. *)
Lemma _pauseButtonOnClick_shape g :
  ∃ d, _pauseButtonOnClick g
       = set_document d (if isPaused g then resume g else pause g).
Proof.
  unfold _pauseButtonOnClick.
  set (g1 := if isPaused g then resume g else pause g).
  destruct (isPaused g1); [by eexists|].
  destruct (isRunning g1); [by eexists|].
  exists (document g1). by destruct g1.
Qed.

End Handlers.

(** ** Which objects a tap scores *)

Section Targets.
Context `{E : Engine}.
Implicit Types (g : BugTap) (o : GameObject) (objs : list GameObject).

Lemma elem_of_targets_from offsetX offsetY i objs j :
  j ∈ targets_from offsetX offsetY i objs ↔
  ∃ k o, j = i + k ∧ objs !! k = Some o ∧ is_target offsetX offsetY o = true.
Proof.
  revert i. induction objs as [|o objs IH]; intros i; simpl.
  - split; [by intros ?%elem_of_nil | by intros (? & ? & _ & ? & _)].
  - assert (j ∈ targets_from offsetX offsetY (S i) objs ↔
            ∃ k o', j = i + S k ∧ objs !! k = Some o'
                    ∧ is_target offsetX offsetY o' = true) as IH'.
    { rewrite IH. setoid_rewrite Nat.add_succ_r. done. }
    destruct (is_target offsetX offsetY o) eqn:Ht.
    + rewrite elem_of_cons, IH'. split.
      * intros [->|(k & o' & -> & ? & ?)].
        -- exists 0, o. by rewrite Nat.add_0_r.
        -- by exists (S k), o'.
      * intros ([|k] & o' & -> & Hk & ?).
        -- left. lia.
        -- right. by exists k, o'.
    + rewrite IH'. split.
      * intros (k & o' & -> & ? & ?). by exists (S k), o'.
      * intros ([|k] & o' & -> & Hk & ?).
        -- simpl in Hk. congruence.
        -- by exists k, o'.
Qed.

Lemma elem_of_tap_targets offsetX offsetY objs j :
  j ∈ tap_targets offsetX offsetY objs ↔
  ∃ o, objs !! j = Some o ∧ is_target offsetX offsetY o = true.
Proof.
  unfold tap_targets. rewrite elem_of_targets_from. split.
  - intros (k & o & -> & ? & ?). by exists o.
  - intros (o & ? & ?). by exists j, o.
Qed.

Lemma NoDup_targets_from offsetX offsetY i objs :
  NoDup (targets_from offsetX offsetY i objs).
Proof.
  revert i. induction objs as [|o objs IH]; intros i; simpl.
  - constructor.
  - destruct (is_target offsetX offsetY o); [|done].
    constructor; [|done].
    rewrite elem_of_targets_from. intros (k & ? & ? & _). lia.
Qed.

(** The targets come in the order of the array. *)
Lemma targets_from_sorted offsetX offsetY i objs :
  StronglySorted lt (targets_from offsetX offsetY i objs).
Proof.
  revert i. induction objs as [|o objs IH]; intros i; simpl.
  - constructor.
  - destruct (is_target offsetX offsetY o); [|done].
    constructor; [done|]. apply Forall_forall.
    intros j (k & ? & -> & _)%elem_of_targets_from. lia.
Qed.

Lemma sum_points_targets offsetX offsetY objs i rest :
  (∀ k, rest !! k = objs !! (i + k)) →
  sum_points objs (targets_from offsetX offsetY i rest)
  = tap_points offsetX offsetY rest.
Proof.
  revert i. induction rest as [|o rest IH]; intros i Hrest; [done|].
  assert (sum_points objs (targets_from offsetX offsetY (S i) rest)
          = tap_points offsetX offsetY rest) as IH'.
  { apply IH. intros k. replace (S i + k) with (i + S k) by lia.
    apply (Hrest (S k)). }
  pose proof (Hrest 0) as Ho. rewrite Nat.add_0_r in Ho. simpl in Ho.
  cbn [targets_from tap_points foldr].
  fold (tap_points offsetX offsetY rest).
  destruct (is_target offsetX offsetY o) eqn:Ht.
  - cbn [sum_points foldr].
    change (foldr _ 0%Z ?l) with (sum_points objs l).
    rewrite IH'. f_equal. unfold points_at. rewrite <- Ho.
    destruct o; simpl in *; try done. by rewrite Ht.
  - rewrite IH'.
    assert (target_points offsetX offsetY o = 0%Z) as ->; [|lia].
    destruct o; simpl in *; rewrite ?Ht; done.
Qed.

Lemma sum_points_tap_targets offsetX offsetY objs :
  sum_points objs (tap_targets offsetX offsetY objs)
  = tap_points offsetX offsetY objs.
Proof. by apply sum_points_targets. Qed.

Lemma sum_points_app objs js ks :
  sum_points objs (js ++ ks) = (sum_points objs js + sum_points objs ks)%Z.
Proof.
  induction js as [|j js IH]; simpl; [done|].
  change (foldr _ 0%Z ?l) with (sum_points objs l). rewrite IH. lia.
Qed.

Lemma sum_points_ext objs objs' js :
  (∀ j, j ∈ js → points_at objs j = points_at objs' j) →
  sum_points objs js = sum_points objs' js.
Proof.
  induction js as [|j js IH]; intros Hjs; [done|].
  cbn [sum_points foldr].
  change (foldr _ 0%Z js) with (sum_points objs js) at 1.
  change (foldr _ 0%Z js) with (sum_points objs' js).
  rewrite IH, Hjs; [done|by left|]. intros ??. apply Hjs. by right.
Qed.

(** The markers are not bugs. *)
Lemma marker_is_point offsetX offsetY objs m :
  m ∈ omap (marker offsetX offsetY) objs → instanceof_Bug m = false.
Proof.
  intros (o & _ & Hm)%list_elem_of_omap.
  destruct o; simpl in Hm; try done.
  destruct (_ && _); [|done]. by injection Hm as <-.
Qed.

(** The objects a tap leaves: what was in the array, the scored bugs dead. *)
Lemma lookup_tap_objects offsetX offsetY objs j o :
  objs !! j = Some o →
  ((hit offsetX offsetY <$> objs) ++ omap (marker offsetX offsetY) objs) !! j
  = Some (hit offsetX offsetY o).
Proof.
  intros Hj. rewrite lookup_app_l by
    (rewrite length_fmap; by eapply lookup_lt_Some).
  by rewrite list_lookup_fmap, Hj.
Qed.

Lemma lookup_tap_objects_bug offsetX offsetY objs j bug :
  ((hit offsetX offsetY <$> objs) ++ omap (marker offsetX offsetY) objs) !! j
  = Some (GBug bug) →
  ∃ o, objs !! j = Some o ∧ hit offsetX offsetY o = GBug bug.
Proof.
  intros Hj. destruct (objs !! j) as [o|] eqn:Ho.
  - rewrite (lookup_tap_objects _ _ _ _ _ Ho) in Hj. exists o.
    split; [done|congruence].
  - apply lookup_ge_None in Ho.
    rewrite lookup_app_r in Hj by (by rewrite length_fmap).
    apply list_elem_of_lookup_2, marker_is_point in Hj. done.
Qed.

Lemma points_at_tap_objects offsetX offsetY objs j :
  points_at
    ((hit offsetX offsetY <$> objs) ++ omap (marker offsetX offsetY) objs) j
  = points_at objs j.
Proof.
  unfold points_at at 1.
  destruct (_ !! j) as [[| |bug|]|] eqn:Hj; unfold points_at.
  - destruct (objs !! j) as [o|] eqn:Ho; [|done].
    rewrite (lookup_tap_objects _ _ _ _ _ Ho) in Hj.
    destruct o; simpl in Hj; try done. by destruct (_ && _).
  - destruct (objs !! j) as [o|] eqn:Ho; [|done].
    rewrite (lookup_tap_objects _ _ _ _ _ Ho) in Hj.
    destruct o; simpl in Hj; try done. by destruct (_ && _).
  - apply lookup_tap_objects_bug in Hj as (o & -> & Ho).
    destruct o; simpl in Ho; try done.
    destruct (_ && _); by injection Ho as <-.
  - destruct (objs !! j) as [o|] eqn:Ho; [|done].
    rewrite (lookup_tap_objects _ _ _ _ _ Ho) in Hj.
    destruct o; simpl in Hj; try done. by destruct (_ && _).
  - destruct (objs !! j) as [o|] eqn:Ho; [|done].
    by rewrite (lookup_tap_objects _ _ _ _ _ Ho) in Hj.
Qed.

Lemma count_markers_app objs objs' :
  count_markers (objs ++ objs') = count_markers objs + count_markers objs'.
Proof. unfold count_markers. by rewrite filter_app, length_app. Qed.

Lemma count_markers_tap_objects offsetX offsetY i objs :
  count_markers
    ((hit offsetX offsetY <$> objs) ++ omap (marker offsetX offsetY) objs)
  = count_markers objs + length (targets_from offsetX offsetY i objs).
Proof.
  rewrite count_markers_app. unfold count_markers.
  revert i. induction objs as [|o objs IH]; intros i; [done|].
  specialize (IH (S i)).
  rewrite fmap_cons, !filter_cons. cbn [omap list_omap targets_from].
  change (list_omap _ _ ?f ?l) with (omap f l).
  destruct (is_target offsetX offsetY o) eqn:Ht.
  - apply is_target_spec in Ht as Hbug. destruct Hbug as (bug & -> & _).
    assert (hit offsetX offsetY (GBug bug) = GBug (setDead bug)
            ∧ marker offsetX offsetY (GBug bug)
              = Some (GPoint (getPoints bug) (x (boundingBox bug))
                        (y (boundingBox bug)))) as [-> ->]
      by (unfold hit, marker; by rewrite Ht).
    rewrite filter_cons, !decide_False by done.
    rewrite decide_True by done. rewrite decide_False by done.
    cbn [length]. lia.
  - assert (hit offsetX offsetY o = o ∧ marker offsetX offsetY o = None)
      as [-> ->] by (destruct o; simpl in *; rewrite ?Ht; done).
    case_decide; simpl; lia.
Qed.

End Targets.

(** ** A session: what every sequence of events preserves *)

Section Session.
Context `{E : Engine}.
Implicit Types (g : BugTap) (o : GameObject) (objs : list GameObject).

Lemma Forall_spawned_from k n : Forall spawned (spawned_from k n).
Proof.
  apply Forall_forall. intros o (k' & -> & _)%list_elem_of_fmap.
  by exists k'.
Qed.

Lemma Forall_spawned_food (food : list Food) : Forall spawned (GFood <$> food).
Proof. apply Forall_forall. by intros o (f & -> & _)%list_elem_of_fmap. Qed.

Lemma startTime_core g :
  gameObjects (startTime g) = gameObjects g
  ∧ soundPoint_plays (startTime g) = soundPoint_plays g
  ∧ _score (startTime g) = _score g
  ∧ _food (startTime g) = _food g
  ∧ runMode (startTime g) = runMode g
  ∧ bugManager_food (startTime g) = bugManager_food g
  ∧ calls (startTime g) = calls g.
Proof. unfold startTime. by destruct (negb (isPaused g)). Qed.

Lemma _pauseButtonOnClick_core g :
  gameObjects (_pauseButtonOnClick g) = gameObjects g
  ∧ soundPoint_plays (_pauseButtonOnClick g) = soundPoint_plays g
  ∧ _score (_pauseButtonOnClick g) = _score g
  ∧ _food (_pauseButtonOnClick g) = _food g
  ∧ store (_pauseButtonOnClick g) = store g
  ∧ _time (_pauseButtonOnClick g) = _time g
  ∧ timers (_pauseButtonOnClick g) = timers g.
Proof.
  destruct (_pauseButtonOnClick_shape g) as [d ->].
  by destruct (isPaused g).
Qed.

(** The start handler, when it returns: the food then the first wave are
    appended to the game objects. *)
Lemma _startButtonOnClick_Some g g' :
  _startButtonOnClick g = Some g' →
  ∃ n,
    _food g' = FoodManager_generate (env_calls g) AMOUNT_OF_FOOD
    ∧ bugManager_food g' = _food g'
    ∧ gameObjects g'
      = gameObjects g ++ (GFood <$> _food g')
          ++ spawned_from (S (S (env_calls g))) n
    ∧ soundPoint_plays g' = soundPoint_plays g
    ∧ _score g' = _score g
    ∧ runMode g' = Game_start (runMode g)
    ∧ calls g' = calls g ++ [CallStart].
Proof.
  unfold _startButtonOnClick, _spawnBugsRandomly, _startTimeElapsed.
  destruct (spawnBugRandomly _) as [g1|] eqn:Hs; [|done].
  cbn [mbind option_bind]. intros [= <-].
  apply spawnBugRandomly_Some in Hs as (n & k & d & -> & _).
  exists n. set (g2 := setTimeout _ _ _).
  cbn -[startTime].
  destruct (startTime_core g2) as (-> & -> & -> & -> & -> & -> & ->).
  subst g2. simpl. by rewrite <- app_assoc.
Qed.

(** Every event but a tap appends cursor, food or fresh bugs to the game
    objects and leaves the score and the sound alone. *)
Lemma dispatch_grows e g g' :
  dispatch e g = Some g' →
  (∀ offsetX offsetY, e ≠ MouseDown offsetX offsetY) →
  ∃ extra,
    gameObjects g' = gameObjects g ++ extra
    ∧ Forall spawned extra
    ∧ soundPoint_plays g' = soundPoint_plays g
    ∧ _score g' = _score g.
Proof.
  intros Hd Hne. destruct e as [| |code|offsetX offsetY|i]; simpl in Hd.
  - apply _startButtonOnClick_Some in Hd
      as (n & _ & _ & -> & -> & -> & _).
    eexists. split; [done|]. split; [|done].
    apply Forall_app. split; [apply Forall_spawned_food|apply Forall_spawned_from].
  - injection Hd as <-. exists [].
    destruct (_pauseButtonOnClick_core g) as (-> & -> & -> & _).
    by rewrite app_nil_r.
  - injection Hd as <-. exists []. unfold document_onKeyDown.
    case_bool_decide; [|by rewrite app_nil_r].
    destruct (_pauseButtonOnClick_core g) as (-> & -> & -> & _).
    by rewrite app_nil_r.
  - by destruct (Hne offsetX offsetY).
  - destruct (timers g !! i) as [t|]; [|done]. cbn [mbind option_bind] in Hd.
    destruct (callback t); simpl in Hd.
    + apply spawnBugRandomly_Some in Hd as (n & k & d & -> & _).
      eexists. split; [done|]. split; [apply Forall_spawned_from|done].
    + injection Hd as <-. exists [].
      destruct (startTime_core (set_timers (delete i (timers g)) g))
        as (-> & -> & -> & _).
      by rewrite app_nil_r.
Qed.

Lemma dispatch_MouseDown offsetX offsetY g :
  dispatch (MouseDown offsetX offsetY) g = Some (TapResolver offsetX offsetY g).
Proof. simpl. by rewrite _canvasOnMouseClick_TapResolver. Qed.

(** *** The scored bugs *)

Lemma Scored_new_BugTap page localStorage :
  Scored (new_BugTap page localStorage).
Proof.
  split; simpl.
  - constructor.
  - intros j. split; [by intros ?%elem_of_nil|].
    intros (bug & Hj & _). by destruct j as [|[|j]].
  - done.
  - done.
Qed.

Lemma Scored_grows g g' extra :
  Scored g →
  gameObjects g' = gameObjects g ++ extra →
  Forall spawned extra →
  soundPoint_plays g' = soundPoint_plays g →
  _score g' = _score g →
  Scored g'.
Proof.
  intros [Hnd Hdead Hsum Hmark] Hobjs Hextra Hplays Hscore.
  assert (∀ j, j ∈ soundPoint_plays g → j < length (gameObjects g)) as Hlt.
  { intros j (bug & Hj & _)%Hdead. by eapply lookup_lt_Some. }
  split; rewrite ?Hplays, ?Hobjs, ?Hscore.
  - done.
  - intros j. rewrite Hdead. split.
    + intros (bug & Hj & Hal). exists bug. split; [|done].
      by apply lookup_app_l_Some.
    + intros (bug & Hj & Hal). exists bug. split; [|done].
      apply lookup_app_Some in Hj as [Hj|[_ Hj]]; [done|].
      apply list_elem_of_lookup_2 in Hj.
      rewrite Forall_forall in Hextra. destruct (Hextra _ Hj) as [k ->]. done.
  - rewrite Hsum. apply sum_points_ext. intros j Hj%Hlt.
    unfold points_at. by rewrite lookup_app_l.
  - rewrite count_markers_app, Hmark.
    assert (count_markers extra = 0) as ->; [|lia].
    unfold count_markers. clear -Hextra.
    induction Hextra as [|o extra Ho _ IH]; [done|].
    rewrite filter_cons_False; [done|]. by destruct o.
Qed.

Lemma Scored_tap_outcome offsetX offsetY g :
  Scored g → Scored (tap_outcome offsetX offsetY 0 g).
Proof.
  intros [Hnd Hdead Hsum Hmark]. unfold tap_outcome. rewrite drop_0, take_0.
  fold (tap_targets offsetX offsetY (gameObjects g)).
  split; cbn [soundPoint_plays gameObjects _score app].
  - apply NoDup_app. split; [done|]. split; [|apply NoDup_targets_from].
    intros j (bug & Hj & Hal)%Hdead (o & Ho & Ht)%elem_of_tap_targets.
    apply is_target_spec in Ht as (bug' & -> & Hal' & _).
    unfold isAlive in Hal'. congruence.
  - intros j. rewrite elem_of_app, Hdead, elem_of_tap_targets. split.
    + intros [(bug & Hj & Hal)|(o & Ho & Ht)].
      * exists bug. split; [|done].
        rewrite (lookup_tap_objects _ _ _ _ _ Hj). simpl.
        unfold isAlive. by rewrite Hal, andb_false_r.
      * pose proof Ht as (bug & -> & _)%is_target_spec.
        exists (setDead bug). split; [|done].
        rewrite (lookup_tap_objects _ _ _ _ _ Ho). unfold hit. by rewrite Ht.
    + intros (bug & Hj & Hal).
      apply lookup_tap_objects_bug in Hj as (o & Ho & Hhit).
      destruct (is_target offsetX offsetY o) eqn:Ht.
      * right. by exists o.
      * left. exists bug. split; [|done].
        destruct o; simpl in *; rewrite ?Ht in Hhit; congruence.
  - rewrite sum_points_app.
    rewrite (sum_points_ext _ (gameObjects g))
      by (intros; apply points_at_tap_objects).
    rewrite (sum_points_ext _ (gameObjects g) (tap_targets _ _ _))
      by (intros; apply points_at_tap_objects).
    rewrite sum_points_tap_targets, Hsum. done.
  - rewrite (count_markers_tap_objects _ _ 0), length_app, Hmark. done.
Qed.

Lemma Scored_dispatch e g g' : Scored g → dispatch e g = Some g' → Scored g'.
Proof.
  intros Hg Hd.
  destruct e as [| |code|offsetX offsetY|i];
    try (destruct (dispatch_grows _ g g' Hd) as (extra & ? & ? & ? & ?);
         [done|]; by eapply Scored_grows).
  rewrite dispatch_MouseDown in Hd. injection Hd as <-.
  unfold TapResolver. case_bool_decide; [|done]. by apply Scored_tap_outcome.
Qed.

Lemma Scored_run es g g' : Scored g → run es g = Some g' → Scored g'.
Proof.
  revert g. induction es as [|e es IH]; intros g Hg; simpl.
  - by intros [= <-].
  - destruct (dispatch e g) as [g1|] eqn:Hd; [|done]. simpl.
    apply IH. by eapply Scored_dispatch.
Qed.

End Session.

(** ** The tap resolver *)

Section TapResolver.
Context `{E : Engine}.
Implicit Types (g : BugTap) (o : GameObject) (objs : list GameObject).

Lemma _canvasOnMouseClick_running offsetX offsetY g :
  runMode g = Running →
  _canvasOnMouseClick offsetX offsetY g = tap_outcome offsetX offsetY 0 g.
Proof.
  intros Hm. rewrite _canvasOnMouseClick_TapResolver. unfold TapResolver.
  by rewrite bool_decide_eq_true_2.
Qed.

Lemma _canvasOnMouseClick_not_running offsetX offsetY g :
  runMode g ≠ Running → _canvasOnMouseClick offsetX offsetY g = g.
Proof.
  intros Hm. unfold _canvasOnMouseClick, isRunning.
  by rewrite bool_decide_eq_false_2.
Qed.

(** What a tap does to the sound, the score and the game objects, whatever
    the run mode: it scores the objects of some list [ts] of targets. *)
Lemma _canvasOnMouseClick_effects offsetX offsetY g :
  ∃ ts,
    ts = (if bool_decide (runMode g = Running)
          then tap_targets offsetX offsetY (gameObjects g) else [])
    ∧ soundPoint_plays (_canvasOnMouseClick offsetX offsetY g)
      = soundPoint_plays g ++ ts
    ∧ _score (_canvasOnMouseClick offsetX offsetY g)
      = (_score g + sum_points (gameObjects g) ts)%Z.
Proof.
  eexists. split; [done|]. case_bool_decide as Hm.
  - rewrite _canvasOnMouseClick_running by done. unfold tap_outcome.
    rewrite drop_0. simpl. by rewrite sum_points_tap_targets.
  - rewrite _canvasOnMouseClick_not_running by done. simpl.
    rewrite app_nil_r. split; [done|lia].
Qed.

(** A tap that finds no live bug under the pointer changes nothing. *)
Lemma tap_outcome_no_target offsetX offsetY g :
  (∀ j bug, gameObjects g !! j = Some (GBug bug) →
            isOverlappingPoint (boundingBox bug) offsetX offsetY = true →
            alive bug = false) →
  tap_outcome offsetX offsetY 0 g = g.
Proof.
  intros Hdead.
  assert (targets_from offsetX offsetY 0 (gameObjects g) = []) as Hts.
  { apply elem_of_nil_inv. intros j (o & Ho & Ht)%elem_of_tap_targets.
    apply is_target_spec in Ht as (bug & -> & Hal & Hov).
    specialize (Hdead _ _ Ho Hov). unfold isAlive in Hal. congruence. }
  unfold tap_outcome. rewrite drop_0, take_0, Hts.
  apply targets_from_nil in Hts as (-> & -> & ->).
  simpl. rewrite !app_nil_r, Z.add_0_r. by destruct g.
Qed.

(** C1: a pointer-down event that arrives while the game is running scans
    the game objects in the order of the array and scores every object that
    is a bug, is alive and whose bounding box contains the point, going on
    after each match: one sound per scored bug in array order, the score
    raised by the sum of their point values, each scored bug dead, one score
    marker per scored bug appended in the same order, the score text and the
    stored score rewritten.  In particular two live bugs that both contain
    the point are both scored by the one tap. *)
Theorem tap_scores_every_live_bug_under_pointer offsetX offsetY g :
  runMode g = Running →
  let objs := gameObjects g in
  let targets := tap_targets offsetX offsetY objs in
  let g' := _canvasOnMouseClick offsetX offsetY g in
  (∀ j, j ∈ targets ↔
        ∃ bug, objs !! j = Some (GBug bug) ∧ isAlive bug = true
               ∧ isOverlappingPoint (boundingBox bug) offsetX offsetY = true)
  ∧ StronglySorted lt targets
  ∧ soundPoint_plays g' = soundPoint_plays g ++ targets
  ∧ _score g' = (_score g + sum_points objs targets)%Z
  ∧ gameObjects g'
    = (hit offsetX offsetY <$> objs) ++ omap (marker offsetX offsetY) objs
  ∧ (targets ≠ [] →
     score_innerHTML (document g') = "Score: " +:+ toString (_score g')
     ∧ store g' !! "score" = Some (toString (_score g')))
  ∧ (∀ j1 j2 bug1 bug2,
       j1 ≠ j2 →
       objs !! j1 = Some (GBug bug1) → objs !! j2 = Some (GBug bug2) →
       isAlive bug1 = true → isAlive bug2 = true →
       isOverlappingPoint (boundingBox bug1) offsetX offsetY = true →
       isOverlappingPoint (boundingBox bug2) offsetX offsetY = true →
       j1 ∈ targets ∧ j2 ∈ targets
       ∧ gameObjects g' !! j1 = Some (GBug (setDead bug1))
       ∧ gameObjects g' !! j2 = Some (GBug (setDead bug2))
       ∧ GPoint (getPoints bug1) (x (boundingBox bug1)) (y (boundingBox bug1))
         ∈ gameObjects g'
       ∧ GPoint (getPoints bug2) (x (boundingBox bug2)) (y (boundingBox bug2))
         ∈ gameObjects g'
       ∧ (targets = [j1; j2] →
          _score g' = (_score g + getPoints bug1 + getPoints bug2)%Z)).
Proof.
  intros Hm objs targets g'.
  assert (∀ j, j ∈ targets ↔
    ∃ bug, objs !! j = Some (GBug bug) ∧ isAlive bug = true
           ∧ isOverlappingPoint (boundingBox bug) offsetX offsetY = true)
    as Htargets.
  { intros j. unfold targets. rewrite elem_of_tap_targets. split.
    - intros (o & Ho & (bug & -> & ? & ?)%is_target_spec). by exists bug.
    - intros (bug & Ho & ? & ?). exists (GBug bug). split; [done|].
      apply is_target_spec. by exists bug. }
  assert (g' = tap_outcome offsetX offsetY 0 g) as Hg'
    by (by apply _canvasOnMouseClick_running).
  assert (gameObjects g'
          = (hit offsetX offsetY <$> objs) ++ omap (marker offsetX offsetY) objs)
    as Hobjs.
  { rewrite Hg'. unfold tap_outcome. by rewrite drop_0, take_0. }
  assert (_score g' = (_score g + sum_points objs targets)%Z) as Hscore.
  { rewrite Hg'. unfold tap_outcome, targets. rewrite drop_0. simpl.
    by rewrite sum_points_tap_targets. }
  split; [done|]. split; [apply targets_from_sorted|].
  split; [rewrite Hg'; unfold tap_outcome; by rewrite drop_0|].
  split; [done|]. split; [done|]. split.
  - intros Hne. rewrite Hg'. unfold tap_outcome. rewrite drop_0.
    fold (tap_targets offsetX offsetY (gameObjects g)). fold objs targets.
    destruct targets as [|t ts]; [done|]. simpl.
    by rewrite lookup_insert_eq.
  - intros j1 j2 bug1 bug2 Hne H1 H2 Hal1 Hal2 Hov1 Hov2.
    assert (is_target offsetX offsetY (GBug bug1) = true) as Ht1
      by (apply is_target_spec; by exists bug1).
    assert (is_target offsetX offsetY (GBug bug2) = true) as Ht2
      by (apply is_target_spec; by exists bug2).
    split; [apply Htargets; by exists bug1|].
    split; [apply Htargets; by exists bug2|].
    rewrite Hobjs.
    split; [rewrite (lookup_tap_objects _ _ _ _ _ H1); unfold hit;
            by rewrite Ht1|].
    split; [rewrite (lookup_tap_objects _ _ _ _ _ H2); unfold hit;
            by rewrite Ht2|].
    split.
    { apply elem_of_app. right. apply list_elem_of_omap. exists (GBug bug1).
      split; [by eapply list_elem_of_lookup_2|]. unfold marker. by rewrite Ht1. }
    split.
    { apply elem_of_app. right. apply list_elem_of_omap. exists (GBug bug2).
      split; [by eapply list_elem_of_lookup_2|]. unfold marker. by rewrite Ht2. }
    intros Hts. rewrite Hscore, Hts. unfold sum_points, points_at. simpl.
    fold objs. rewrite H1, H2. unfold getPoints. lia.
Qed.


End TapResolver.

(** ** Scoring over a session *)

Section Scoring.
Context `{E : Engine}.
Implicit Types (g : BugTap) (o : GameObject) (objs : list GameObject).

(** No handler revives a bug. *)
Lemma dispatch_dead_stays_dead e g g' j bug :
  dispatch e g = Some g' →
  gameObjects g !! j = Some (GBug bug) → alive bug = false →
  gameObjects g' !! j = Some (GBug bug).
Proof.
  intros Hd Hj Hal.
  destruct e as [| |code|offsetX offsetY|i];
    try (destruct (dispatch_grows _ g g' Hd) as (extra & -> & _); [done|];
         by apply lookup_app_l_Some).
  rewrite dispatch_MouseDown in Hd. injection Hd as <-.
  unfold TapResolver. case_bool_decide; [|done].
  unfold tap_outcome. rewrite drop_0, take_0. simpl.
  rewrite (lookup_tap_objects _ _ _ _ _ Hj). simpl.
  unfold isAlive. by rewrite Hal, andb_false_r.
Qed.

Lemma tap_points_nonneg offsetX offsetY objs :
  Forall points_nonneg objs → (0 ≤ tap_points offsetX offsetY objs)%Z.
Proof.
  induction 1 as [|o objs Ho _ IH]; simpl; [done|].
  fold (tap_points offsetX offsetY objs).
  assert (0 ≤ target_points offsetX offsetY o)%Z; [|lia].
  destruct o; simpl in *; try done. by destruct (_ && _).
Qed.

Lemma points_nonneg_dispatch e g g' :
  (∀ k, (0 ≤ spawn_points k)%Z) →
  dispatch e g = Some g' →
  Forall points_nonneg (gameObjects g) →
  Forall points_nonneg (gameObjects g') ∧ (_score g ≤ _score g')%Z.
Proof.
  intros Hsp Hd Hg.
  destruct e as [| |code|offsetX offsetY|i];
    try (destruct (dispatch_grows _ g g' Hd) as (extra & -> & Hex & _ & ->);
         [done|]; split; [|done]; apply Forall_app; split; [done|];
         eapply Forall_impl; [exact Hex|];
         intros [| |bug|]; simpl; try done; intros [k ->]; apply Hsp).
  rewrite dispatch_MouseDown in Hd. injection Hd as <-.
  unfold TapResolver. case_bool_decide; [|done].
  unfold tap_outcome. rewrite drop_0, take_0. simpl. split.
  - apply Forall_app. split.
    + apply Forall_fmap. eapply Forall_impl; [exact Hg|].
      intros [| |bug|]; simpl; try done. by destruct (_ && _).
    + apply Forall_forall. intros m Hm%marker_is_point.
      by destruct m.
  - pose proof (tap_points_nonneg offsetX offsetY _ Hg). lia.
Qed.

Lemma points_nonneg_run es g g' :
  (∀ k, (0 ≤ spawn_points k)%Z) →
  run es g = Some g' →
  Forall points_nonneg (gameObjects g) →
  Forall points_nonneg (gameObjects g') ∧ (_score g ≤ _score g')%Z.
Proof.
  intros Hsp. revert g. induction es as [|e es IH]; intros g; simpl.
  - by intros [= <-].
  - destruct (dispatch e g) as [g1|] eqn:Hd; [|done]. simpl.
    intros Hr Hg.
    destruct (points_nonneg_dispatch _ _ _ Hsp Hd Hg) as [Hg1 ?].
    destruct (IH _ Hr Hg1). split; [done|lia].
Qed.

(** C2: over a whole session a bug is scored at most once.  Every state
    reached from the constructor has one sound cue at most per bug, the bugs
    that had one are the dead ones, and there are as many score markers as
    sound cues; no event makes a dead bug alive
    again; and a tap does not score a dead bug: the bug is not among the
    objects the tap plays a sound for or adds points for, and a tap under
    which every bug is dead changes nothing at all. *)
Theorem bug_scored_at_most_once page localStorage es g :
  run es (new_BugTap page localStorage) = Some g →
  NoDup (soundPoint_plays g)
  ∧ (∀ j, j ∈ soundPoint_plays g ↔ dead_bug_at (gameObjects g) j)
  ∧ count_markers (gameObjects g) = length (soundPoint_plays g)
  ∧ (∀ e g' j bug,
       dispatch e g = Some g' →
       gameObjects g !! j = Some (GBug bug) → alive bug = false →
       gameObjects g' !! j = Some (GBug bug))
  ∧ (∀ offsetX offsetY j bug,
       gameObjects g !! j = Some (GBug bug) → alive bug = false →
       let g' := _canvasOnMouseClick offsetX offsetY g in
       ∃ ts,
         soundPoint_plays g' = soundPoint_plays g ++ ts
         ∧ _score g' = (_score g + sum_points (gameObjects g) ts)%Z
         ∧ (j ∉ ts)
         ∧ NoDup (soundPoint_plays g'))
  ∧ (∀ offsetX offsetY,
       (∀ j bug, gameObjects g !! j = Some (GBug bug) →
                 isOverlappingPoint (boundingBox bug) offsetX offsetY = true →
                 alive bug = false) →
       _canvasOnMouseClick offsetX offsetY g = g).
Proof.
  intros Hrun.
  pose proof (Scored_run _ _ _ (Scored_new_BugTap page localStorage) Hrun)
    as Hg.
  split; [apply Hg|]. split; [apply Hg|]. split; [apply Hg|].
  split; [intros; by eapply dispatch_dead_stays_dead|]. split.
  - intros offsetX offsetY j bug Hj Hal g'.
    destruct (_canvasOnMouseClick_effects offsetX offsetY g)
      as (ts & Hts & Hplays & Hscore).
    exists ts. split; [done|]. split; [done|]. split.
    + rewrite Hts. case_bool_decide; [|apply not_elem_of_nil].
      intros (o & Ho & Ht)%elem_of_tap_targets.
      apply is_target_spec in Ht as (bug' & -> & Hal' & _).
      unfold isAlive in Hal'. congruence.
    + assert (Scored g') as Hg'; [|apply Hg'].
      apply (Scored_dispatch (MouseDown offsetX offsetY) g); done.
  - intros offsetX offsetY Hdead.
    rewrite _canvasOnMouseClick_TapResolver. unfold TapResolver.
    case_bool_decide; [|done]. by apply tap_outcome_no_target.
Qed.

(** C3: over every sequence of events the score does not decrease, given
    that no bug is worth a negative number of points, and in every state
    reached from the constructor the score is the sum of the point values of
    the bugs that a tap turned from alive to dead: each such bug is counted
    once, and they are exactly the dead bugs of the game. *)
Theorem score_monotone_and_sum_of_tapped page localStorage es es' g g' :
  (∀ k, (0 ≤ spawn_points k)%Z) →
  run es (new_BugTap page localStorage) = Some g →
  run es' g = Some g' →
  (_score g ≤ _score g')%Z
  ∧ (0 ≤ _score g)%Z
  ∧ _score g = sum_points (gameObjects g) (soundPoint_plays g)
  ∧ NoDup (soundPoint_plays g)
  ∧ (∀ j, j ∈ soundPoint_plays g ↔ dead_bug_at (gameObjects g) j).
Proof.
  intros Hsp Hrun Hrun'.
  pose proof (Scored_run _ _ _ (Scored_new_BugTap page localStorage) Hrun)
    as Hg.
  assert (Forall points_nonneg (gameObjects (new_BugTap page localStorage)))
    as H0 by (by repeat constructor).
  destruct (points_nonneg_run _ _ _ Hsp Hrun H0) as [Hnn Hpos].
  destruct (points_nonneg_run _ _ _ Hsp Hrun' Hnn) as [_ Hle].
  split; [done|]. split; [done|]. split; [apply Hg|].
  split; apply Hg.
Qed.

End Scoring.

(** ** The spawn scheduler *)

Section SpawnScheduler.
Context `{E : Engine}.
Implicit Types (g : BugTap) (o : GameObject) (objs : list GameObject).

Lemma spawn_guard_true g :
  isRunning g && bool_decide (0 < length (_food g)) = true ↔
  runMode g = Running ∧ _food g ≠ [].
Proof.
  unfold isRunning. rewrite andb_true_iff, !bool_decide_eq_true.
  destruct (_food g); simpl; split; intros [??]; split; try done; lia.
Qed.

Lemma spawn_guard_false g :
  isRunning g && bool_decide (0 < length (_food g)) = false ↔
  ¬ (runMode g = Running ∧ _food g ≠ []).
Proof. rewrite <- spawn_guard_true. by destruct (_ && _). Qed.

Lemma length_spawned_from k n : length (spawned_from k n) = n.
Proof. unfold spawned_from. by rewrite length_fmap, length_seq. Qed.

(** C5: a spawn cycle has two steps.  First, if and only if the game is
    running and there is food, it draws [n = getRandomNumber(1, 3)] and adds
    exactly [n] fresh bugs at the end of the game objects, so between 1 and 3
    bugs; otherwise it adds nothing.  Second, in either case, it draws a
    fresh delay [getRandomNumber(800, 1500)], so within 800 and 1500 ms, and
    sets the timer of the next cycle to it.  [getRandomNumber] is taken to
    return an integer within its inclusive bounds. *)
Theorem spawn_cycle_wave_then_reschedule g :
  RandomRange →
  ∃ g' added k,
    spawnBugRandomly g = Some g'
    ∧ gameObjects g' = gameObjects g ++ added
    ∧ Forall (λ o, ∃ k, o = GBug (BugManager_spawn k)) added
    ∧ (runMode g = Running ∧ _food g ≠ [] →
       let n := getRandomNumber (env_calls g)
                  MIN_BUGS_TO_SPAWN MAX_BUGS_TO_SPAWN in
       Z.of_nat (length added) = n ∧ (1 ≤ n ≤ 3)%Z)
    ∧ (¬ (runMode g = Running ∧ _food g ≠ []) → added = [])
    ∧ timers g'
      = timers g
        ++ [{| callback := cb_spawnBugRandomly;
               delay := getRandomNumber k MIN_SPAWN_INTERVAL MAX_SPAWN_INTERVAL |}]
    ∧ (800 ≤ getRandomNumber k MIN_SPAWN_INTERVAL MAX_SPAWN_INTERVAL ≤ 1500)%Z
    ∧ env_calls g' = S k
    ∧ (runMode g = Running ∧ _food g ≠ [] → env_calls g < k)
    ∧ (¬ (runMode g = Running ∧ _food g ≠ []) → k = env_calls g).
Proof.
  intros Hrand.
  assert (∀ k, 800 ≤ getRandomNumber k MIN_SPAWN_INTERVAL MAX_SPAWN_INTERVAL
               ≤ 1500)%Z as Hdelay by (intros k; by apply Hrand).
  destruct (isRunning g && bool_decide (0 < length (_food g))) eqn:Hgo.
  - assert (1 ≤ getRandomNumber (env_calls g) MIN_BUGS_TO_SPAWN
                   MAX_BUGS_TO_SPAWN ≤ 3)%Z as Hn by (by apply Hrand).
    rewrite spawnBugRandomly_wave by (done || lia).
    eexists _, _, _. split; [done|]. simpl. split; [done|].
    split; [|split; [|split; [|split; [done|split; [done|]]]]].
    + apply Forall_forall. intros o (k & -> & _)%list_elem_of_fmap.
      by exists k.
    + intros _. rewrite length_spawned_from. split; [lia|done].
    + intros Hno. by apply spawn_guard_false in Hno; congruence.
    + split; [done|]. split; [lia|].
      intros Hno. by apply spawn_guard_false in Hno; congruence.
  - rewrite spawnBugRandomly_idle by done.
    exists (setTimeout cb_spawnBugRandomly
              (getRandomNumber (env_calls g) MIN_SPAWN_INTERVAL
                 MAX_SPAWN_INTERVAL) (env_called g)), [], (env_calls g).
    simpl. rewrite app_nil_r.
    split; [done|]. split; [done|]. split; [done|]. split.
    { intros Hyes%spawn_guard_true. congruence. }
    split; [done|]. split; [done|]. split; [done|]. split; [done|].
    split; [|done]. intros Hyes%spawn_guard_true. congruence.
Qed.

End SpawnScheduler.

(** ** Pausing *)

Section Pause.
Context `{E : Engine}.
Implicit Types (g : BugTap) (o : GameObject) (objs : list GameObject).

Lemma paused_not_running g : runMode g = Paused → isRunning g = false.
Proof. intros Hm. unfold isRunning. rewrite Hm. done. Qed.

(** A timer that fires while the game is paused changes nothing but the
    timers and the count of engine calls: the cycle is set again. *)
Lemma paused_Timeout i g g' :
  runMode g = Paused →
  dispatch (Timeout i) g = Some g' →
  runMode g' = Paused ∧ _time g' = _time g ∧ document g' = document g
  ∧ store g' = store g ∧ gameObjects g' = gameObjects g
  ∧ _score g' = _score g
  ∧ callback <$> timers g' ≡ₚ callback <$> timers g.
Proof.
  intros Hm. simpl. destruct (timers g !! i) as [t|] eqn:Ht; [|done].
  cbn [mbind option_bind].
  assert (∀ d, callback <$> (delete i (timers g)
                 ++ [{| callback := callback t; delay := d |}])
               ≡ₚ callback <$> timers g) as Hperm.
  { intros d. rewrite fmap_app. simpl.
    rewrite (delete_Permutation (timers g) i t Ht) at 2.
    rewrite fmap_cons. symmetry. apply Permutation_cons_append. }
  destruct (callback t) eqn:Hcb; simpl.
  - rewrite spawnBugRandomly_idle
      by (unfold isRunning; simpl; by rewrite Hm).
    intros [= <-]. simpl. repeat (split; [done|]). apply Hperm.
  - rewrite startTime_paused by done.
    intros [= <-]. simpl. repeat (split; [done|]). apply Hperm.
Qed.

Lemma paused_Timeout_total i g :
  runMode g = Paused → i < length (timers g) →
  is_Some (dispatch (Timeout i) g).
Proof.
  intros Hm [t Ht]%lookup_lt_is_Some. simpl. rewrite Ht.
  cbn [mbind option_bind]. destruct (callback t); simpl; [|done].
  rewrite spawnBugRandomly_idle
    by (unfold isRunning; simpl; by rewrite Hm).
  done.
Qed.

Lemma paused_run_Timeouts (fired : list nat) g g' :
  runMode g = Paused →
  run (Timeout <$> fired) g = Some g' →
  runMode g' = Paused ∧ _time g' = _time g ∧ document g' = document g
  ∧ store g' = store g ∧ gameObjects g' = gameObjects g
  ∧ _score g' = _score g
  ∧ callback <$> timers g' ≡ₚ callback <$> timers g.
Proof.
  revert g. induction fired as [|i fired IH]; intros g Hm.
  - by intros [= <-].
  - rewrite fmap_cons. cbn [run].
    destruct (dispatch (Timeout i) g) as [g1|] eqn:Hd; [|done].
    cbn [mbind option_bind]. intros Hr.
    destruct (paused_Timeout _ _ _ Hm Hd)
      as (Hm1 & <- & <- & <- & <- & <- & <-).
    by apply IH.
Qed.

(** C4: while the game is paused a tick leaves the clock and the page as
    they are and a spawn cycle adds no game object, and either only sets the
    timer of its next cycle again; so after any number of timers have fired
    the clock, the page, the store and the game objects are unchanged and
    the same callbacks are pending.  After the toggle has resumed the game
    (the engine's [resume()] takes a paused game to running), the timers
    that were pending are still pending, and when one fires the clock
    advances by one, or a wave of 1 to 3 bugs is spawned if there is food. *)
Theorem pause_freezes_clock_and_spawns g :
  runMode g = Paused →
  startTime g = setTimeout cb_startTime 1000 g
  ∧ spawnBugRandomly g
    = Some (setTimeout cb_spawnBugRandomly
              (getRandomNumber (env_calls g)
                 MIN_SPAWN_INTERVAL MAX_SPAWN_INTERVAL)
              (env_called g))
  ∧ (∀ i, i < length (timers g) → is_Some (dispatch (Timeout i) g))
  ∧ (∀ (fired : list nat) g',
       run (Timeout <$> fired) g = Some g' →
       runMode g' = Paused ∧ _time g' = _time g ∧ document g' = document g
       ∧ store g' = store g ∧ gameObjects g' = gameObjects g
       ∧ callback <$> timers g' ≡ₚ callback <$> timers g)
  ∧ (Game_resume Paused = Running → RandomRange →
     let gr := _pauseButtonOnClick g in
     runMode gr = Running ∧ timers gr = timers g
     ∧ _time gr = _time g ∧ gameObjects gr = gameObjects g
     ∧ ∀ i t, timers g !! i = Some t →
         ∃ g2, dispatch (Timeout i) gr = Some g2
           ∧ (callback t = cb_startTime →
              _time g2 = (_time g + 1)%Z
              ∧ time_innerHTML (document g2)
                = "Time: " +:+ formatSeconds (_time g + 1))
           ∧ (callback t = cb_spawnBugRandomly → _food g ≠ [] →
              ∃ n, 1 ≤ n ≤ 3
                ∧ length (gameObjects g2) = length (gameObjects g) + n)).
Proof.
  intros Hm. split; [by apply startTime_paused|].
  split; [apply spawnBugRandomly_idle; by rewrite paused_not_running|].
  split; [intros; by apply paused_Timeout_total|].
  split.
  { intros fired g' Hr.
    destruct (paused_run_Timeouts _ _ _ Hm Hr)
      as (? & ? & ? & ? & ? & _ & ?). done. }
  intros Hresume Hrand gr.
  assert (gr = set_document
                 (set_pause_resume_button_src "assets/graphics/pause.png"
                    (document g)) (resume g)) as Hgr.
  { unfold gr, _pauseButtonOnClick.
    assert (isPaused g = true) as ->
      by (unfold isPaused; by rewrite Hm).
    assert (isPaused (resume g) = false) as ->
      by (unfold isPaused, resume; simpl; by rewrite Hm, Hresume).
    assert (isRunning (resume g) = true) as ->
      by (unfold isRunning, resume; simpl; by rewrite Hm, Hresume).
    done. }
  assert (runMode gr = Running) as Hmr by (rewrite Hgr; simpl; congruence).
  split; [done|]. rewrite Hgr. simpl. split; [done|]. split; [done|].
  split; [done|]. intros i t Ht. rewrite Ht. cbn [mbind option_bind].
  destruct (callback t) eqn:Hcb; simpl.
  - destruct (decide (_food g = [])) as [Hf|Hf].
    + rewrite spawnBugRandomly_idle
        by (simpl; rewrite Hf; simpl; apply andb_false_r).
      eexists. split; [done|]. split; [done|]. by intros _ ?.
    + destruct (spawnBugRandomly_wave_size
        (set_timers (delete i (timers g))
           (set_document
              (set_pause_resume_button_src "assets/graphics/pause.png"
                 (document g)) (resume g))) Hrand)
        as (g2 & n & -> & _ & Hn & Hobjs).
      { unfold isRunning. simpl. rewrite Hm, Hresume. simpl.
        apply bool_decide_eq_true. destruct (_food g); simpl; [done|lia]. }
      exists g2. split; [done|]. split; [done|]. intros _ _.
      exists n. split; [done|].
      rewrite Hobjs, length_app. unfold spawned_from.
      by rewrite length_fmap, length_seq.
  - eexists. split; [done|]. split; [|done]. intros _.
    rewrite startTime_not_paused by (simpl; congruence). done.
Qed.

End Pause.

(** ** The time tracker *)

Section TimeTracker.
Context `{E : Engine}.
Implicit Types (g : BugTap).

(** Below sixty the decimal form has one digit below ten and two from ten. *)
Lemma toString_length_below_60 r :
  (0 ≤ r < 60)%Z →
  String.length (toString r) = if bool_decide (r < 10)%Z then 1 else 2.
Proof.
  intros Hr. rewrite <- (Z2Nat.id r) by lia.
  assert (Z.to_nat r < 60) as Hn by lia.
  generalize dependent (Z.to_nat r). clear. intros n Hn.
  do 60 (destruct n as [|n]; [by vm_compute|]). lia.
Qed.

(** The [minutes:seconds] form: the minutes as they are, a colon, and the
    seconds on exactly two characters, with a leading zero below ten. *)
Lemma formatSeconds_spec seconds :
  (0 ≤ seconds)%Z →
  ∃ ss,
    formatSeconds seconds = toString (seconds `div` 60) +:+ ":" +:+ ss
    ∧ String.length ss = 2
    ∧ ss = if bool_decide (seconds `mod` 60 < 10)%Z
           then "0" +:+ toString (seconds `mod` 60)
           else toString (seconds `mod` 60).
Proof.
  intros Hs. unfold formatSeconds. rewrite Z.rem_mod_nonneg by lia.
  pose proof (Z.mod_pos_bound seconds 60 ltac:(lia)) as Hr.
  pose proof (toString_length_below_60 _ Hr) as Hlen.
  eexists. split; [done|]. split; [|done].
  destruct (bool_decide (seconds `mod` 60 < 10)%Z); [|done].
  change (String.length ("0" +:+ ?s)) with (S (String.length s)).
  by rewrite Hlen.
Qed.

Lemma iter_startTime n g :
  runMode g ≠ Paused →
  runMode (Nat.iter n startTime g) = runMode g
  ∧ _time (Nat.iter n startTime g) = (_time g + Z.of_nat n)%Z
  ∧ (0 < n →
     time_innerHTML (document (Nat.iter n startTime g))
     = "Time: " +:+ formatSeconds (_time g + Z.of_nat n)
     ∧ store (Nat.iter n startTime g) !! "time"
       = Some (toString (_time g + Z.of_nat n))).
Proof.
  intros Hm. induction n as [|n (IHm & IHt & _)].
  - simpl. split; [done|]. split; [lia|]. lia.
  - rewrite Nat.iter_succ, startTime_not_paused by congruence.
    simpl. rewrite IHt.
    replace (_time g + Z.of_nat n + 1)%Z with (_time g + Z.of_nat (S n))%Z by lia.
    split; [done|]. split; [done|]. intros _.
    split; [done|]. by rewrite lookup_insert_eq.
Qed.

(** C7: a tick that arrives while the game is not paused adds one to the
    elapsed seconds, writes them to the page as ["Time: "] followed by
    [minutes:seconds], the seconds on two digits with a leading zero below
    ten, stores the raw integer under ["time"], and sets the next tick in one
    second.  After 65 such ticks from zero the time shown is ["1:05"]. *)
Theorem tick_increments_formats_persists g :
  runMode g ≠ Paused →
  let g' := startTime g in
  _time g' = (_time g + 1)%Z
  ∧ time_innerHTML (document g') = "Time: " +:+ formatSeconds (_time g')
  ∧ store g' !! "time" = Some (toString (_time g'))
  ∧ timers g' = timers g ++ [{| callback := cb_startTime; delay := 1000 |}]
  ∧ (∀ seconds, (0 ≤ seconds)%Z →
       ∃ ss,
         formatSeconds seconds = toString (seconds `div` 60) +:+ ":" +:+ ss
         ∧ String.length ss = 2
         ∧ ss = if bool_decide (seconds `mod` 60 < 10)%Z
                then "0" +:+ toString (seconds `mod` 60)
                else toString (seconds `mod` 60))
  ∧ (_time g = 0%Z →
     let g65 := Nat.iter 65 startTime g in
     _time g65 = 65%Z
     ∧ time_innerHTML (document g65) = "Time: 1:05"
     ∧ store g65 !! "time" = Some "65")
  ∧ formatSeconds 65 = "1:05".
Proof.
  intros Hm g'.
  assert (_time g' = (_time g + 1)%Z) as Ht'
    by (unfold g'; by rewrite startTime_not_paused).
  split; [done|]. rewrite Ht'.
  split; [unfold g'; by rewrite startTime_not_paused|].
  split.
  { unfold g'. rewrite startTime_not_paused by done.
    cbn [store setTimeout set_timers addToStore set_store].
    by rewrite lookup_insert_eq. }
  split; [unfold g'; by rewrite startTime_not_paused|].
  split; [apply formatSeconds_spec|].
  split; [|by vm_compute].
  intros H0 g65.
  destruct (iter_startTime 65 g Hm) as (_ & Ht & Hshow).
  destruct Hshow as [Hdoc Hst]; [lia|].
  unfold g65. rewrite Ht, Hdoc, Hst, H0. by vm_compute.
Qed.

End TimeTracker.

(** ** Start, and what comes before it *)

Section Start.
Context `{E : Engine}.
Implicit Types (g : BugTap) (o : GameObject) (objs : list GameObject).






(** In the earlier revision the constructor creates the food before it
    launches the spawn loop: in the game it builds, the cursor and the food
    come before every bug. *)
Lemma Legacy_food_before_bugs mode page localStorage g :
  Legacy.new_BugTap mode page localStorage = Some g →
  ∃ n,
    gameObjects g
    = GCursor :: (GFood <$> FoodManager_generate 0 8) ++ spawned_from 2 n
    ∧ (mode = Paused → n = 0).
Proof.
  unfold Legacy.new_BugTap, Legacy.spawnBugsRandomly, Legacy.spawnBugRandomly.
  unfold isPaused. simpl. destruct (decide (mode = Paused)) as [->|Hm].
  - simpl. intros [= <-]. exists 0. simpl. by rewrite app_nil_r.
  - rewrite bool_decide_eq_false_2 by done. simpl.
    destruct (Array_fill_null _) as [arr|] eqn:Harr; [|done].
    unfold Array_fill_null in Harr. case_bool_decide; [|done].
    injection Harr as <-. cbn [mbind option_bind].
    change Legacy.spawnBug with _spawnBug.
    rewrite foldl_spawnBug. simpl. intros [= <-]. simpl.
    eexists. split; [done|done].
Qed.

End Start.

(** ** The persistent store and the pause toggle *)

Section Glue.
Context `{E : Engine}.
Implicit Types (g : BugTap).






(** C10: the pause toggle, whether it comes from a click on the pause
    button or from the Space key, calls [resume()] when the game is paused
    and [pause()] in every other run mode; it is not guarded on the game
    running, so on a game that was never started it calls [pause()]. *)
Theorem pause_toggle_calls_resume_or_pause g :
  calls (_pauseButtonOnClick g)
  = calls g ++ [if bool_decide (runMode g = Paused) then CallResume
                else CallPause]
  ∧ runMode (_pauseButtonOnClick g)
    = (if bool_decide (runMode g = Paused) then Game_resume (runMode g)
       else Game_pause (runMode g))
  ∧ dispatch PauseButtonClick g = Some (_pauseButtonOnClick g)
  ∧ dispatch (KeyDown "Space") g = Some (_pauseButtonOnClick g)
  ∧ calls (_pauseButtonOnClick (set_runMode NotStarted g))
    = calls g ++ [CallPause]
  ∧ calls (_pauseButtonOnClick (set_runMode Running g))
    = calls g ++ [CallPause]
  ∧ calls (_pauseButtonOnClick (set_runMode Paused g))
    = calls g ++ [CallResume]
  ∧ (∀ page localStorage,
       calls (_pauseButtonOnClick (new_BugTap page localStorage))
       = [CallPause]).
Proof.
  assert (∀ g, calls (_pauseButtonOnClick g)
               = calls g ++ [if bool_decide (runMode g = Paused)
                             then CallResume else CallPause]
             ∧ runMode (_pauseButtonOnClick g)
               = (if bool_decide (runMode g = Paused)
                  then Game_resume (runMode g)
                  else Game_pause (runMode g))) as Hcalls.
  { intros g0. destruct (_pauseButtonOnClick_shape g0) as [d ->].
    unfold isPaused. by case_bool_decide. }
  split; [apply Hcalls|]. split; [apply Hcalls|].
  split; [done|]. split; [done|].
  split; [by rewrite (proj1 (Hcalls _))|].
  split; [by rewrite (proj1 (Hcalls _))|].
  split; [by rewrite (proj1 (Hcalls _))|].
  intros page localStorage. by rewrite (proj1 (Hcalls _)).
Qed.

End Glue.

(** * The properties on a concrete game *)

Section Concrete.
Local Existing Instance Demo.engine.

Lemma Demo_RandomRange : RandomRange.
Proof.
  intros k lo hi Hle. simpl.
  pose proof (Z.mod_pos_bound (Z.of_nat k) (hi - lo + 1)). lia.
Defined.

Lemma Demo_spawn_points_nonneg k : (0 ≤ spawn_points k)%Z.
Proof.
  simpl. pose proof (Z.mod_pos_bound (Z.of_nat k) 3). lia.
Defined.

(** One tap on the point (16, 3), which lies in the boxes of the two live
    bugs at indices 11 and 12, worth 5 and 1: both are scored. *)
Lemma tap_scores_every_live_bug_under_pointer_witness :
  runMode Demo.started = Running
  ∧ 11 ∈ tap_targets 16 3 (gameObjects Demo.started)
  ∧ 12 ∈ tap_targets 16 3 (gameObjects Demo.started)
  ∧ _score (_canvasOnMouseClick 16 3 Demo.started) = 6%Z.
Proof.
  split; [reflexivity|].
  pose proof (tap_scores_every_live_bug_under_pointer 16 3 Demo.started
                eq_refl) as H.
  cbv zeta in H. destruct H as (_ & _ & _ & _ & _ & _ & Hboth).
  destruct (Hboth 11 12
    {| boundingBox := {| x := 10; y := 0; width := 20; height := 20 |};
       points := 5; alive := true |}
    {| boundingBox := {| x := 15; y := 0; width := 20; height := 20 |};
       points := 1; alive := true |})
    as (H11 & H12 & _ & _ & _ & _ & Hscore);
    [lia|reflexivity|reflexivity|reflexivity|reflexivity|reflexivity
    |reflexivity|].
  split; [exact H11|]. split; [exact H12|].
  rewrite Hscore; reflexivity.
Defined.

(** Three taps on the same point in one session: each bug has one sound. *)
Lemma bug_scored_at_most_once_witness :
  run Demo.session Demo.g0 = Some Demo.ended
  ∧ NoDup (soundPoint_plays Demo.ended)
  ∧ soundPoint_plays Demo.ended = [11; 12].
Proof.
  assert (run Demo.session Demo.g0 = Some Demo.ended) as Hrun
    by (vm_compute; reflexivity).
  split; [exact Hrun|]. split; [|reflexivity].
  exact (proj1 (bug_scored_at_most_once Demo.page Demo.localStorage
                  Demo.session Demo.ended Hrun)).
Defined.

Lemma score_monotone_and_sum_of_tapped_witness :
  (∀ k, (0 ≤ spawn_points k)%Z)
  ∧ run [StartButtonClick] Demo.g0 = Some Demo.started
  ∧ run [MouseDown 16 3] Demo.started = Some Demo.tapped
  ∧ (_score Demo.started ≤ _score Demo.tapped)%Z.
Proof.
  assert (run [StartButtonClick] Demo.g0 = Some Demo.started) as Hrun
    by (vm_compute; reflexivity).
  assert (run [MouseDown 16 3] Demo.started = Some Demo.tapped) as Hrun'
    by (vm_compute; reflexivity).
  split; [exact Demo_spawn_points_nonneg|]. split; [exact Hrun|].
  split; [exact Hrun'|].
  exact (proj1 (score_monotone_and_sum_of_tapped Demo.page Demo.localStorage
                  _ _ _ _ Demo_spawn_points_nonneg Hrun Hrun')).
Defined.

(** A paused game: the tick only sets its timer again; once the toggle has
    resumed the game the pending tick (timer 1) takes the clock from 1 to 2
    and the pending spawn cycle (timer 0) spawns a wave. *)
Lemma pause_freezes_clock_and_spawns_witness :
  runMode Demo.paused = Paused
  ∧ startTime Demo.paused = setTimeout cb_startTime 1000 Demo.paused
  ∧ Game_resume Paused = Running
  ∧ (∃ g2, dispatch (Timeout 1) (_pauseButtonOnClick Demo.paused) = Some g2
           ∧ _time g2 = 2%Z)
  ∧ (∃ g2 n, dispatch (Timeout 0) (_pauseButtonOnClick Demo.paused) = Some g2
             ∧ 1 ≤ n ≤ 3
             ∧ length (gameObjects g2) = 13 + n).
Proof.
  pose proof (pause_freezes_clock_and_spawns Demo.paused eq_refl) as H.
  destruct H as (Htick & _ & _ & _ & Hresume).
  specialize (Hresume eq_refl Demo_RandomRange). cbv zeta in Hresume.
  destruct Hresume as (_ & _ & _ & _ & Hnext).
  split; [reflexivity|]. split; [exact Htick|]. split; [reflexivity|].
  split.
  - destruct (Hnext 1 {| callback := cb_startTime; delay := 1000 |} eq_refl)
      as (g2 & Hd & Ht & _).
    exists g2. split; [exact Hd|]. exact (proj1 (Ht eq_refl)).
  - destruct (Hnext 0 {| callback := cb_spawnBugRandomly; delay := 804 |}
                eq_refl) as (g2 & Hd & _ & Hs).
    destruct (Hs eq_refl) as (n & Hn & Hlen); [discriminate|].
    exists g2, n. split; [exact Hd|]. split; [exact Hn|]. exact Hlen.
Defined.

Lemma spawn_cycle_wave_then_reschedule_witness :
  RandomRange
  ∧ ∃ g', spawnBugRandomly Demo.started = Some g'
          ∧ length (gameObjects Demo.started) < length (gameObjects g')
            ≤ length (gameObjects Demo.started) + 3.
Proof.
  split; [exact Demo_RandomRange|].
  destruct (spawn_cycle_wave_then_reschedule Demo.started Demo_RandomRange)
    as (g' & added & k & Hs & Hobjs & _ & Hyes & _).
  exists g'. split; [exact Hs|]. rewrite Hobjs, length_app.
  destruct Hyes as [Hlen Hn]; [split; [reflexivity|discriminate]|].
  lia.
Defined.


Lemma tick_increments_formats_persists_witness :
  runMode Demo.g0 ≠ Paused
  ∧ _time Demo.g0 = 0%Z
  ∧ time_innerHTML (document (Nat.iter 65 startTime Demo.g0)) = "Time: 1:05".
Proof.
  assert (runMode Demo.g0 ≠ Paused) as Hm by discriminate.
  split; [exact Hm|]. split; [reflexivity|].
  pose proof (tick_increments_formats_persists Demo.g0 Hm) as H.
  cbv zeta in H. destruct H as (_ & _ & _ & _ & _ & H65 & _).
  exact (proj1 (proj2 (H65 eq_refl))).
Defined.




End Concrete.

(** * Properties beyond the claims *)

(** ** The shape of each handler's result *)

Section Shapes.
Context `{E : Engine}.
Implicit Types (g : BugTap) (o : GameObject) (objs : list GameObject).

(** A spawn cycle that returns: the wave [n], the index [k] of the draw of
    the delay. *)
Lemma spawnBugRandomly_shape g g' :
  spawnBugRandomly g = Some g' →
  ∃ n k,
    g' = setTimeout cb_spawnBugRandomly
           (getRandomNumber k MIN_SPAWN_INTERVAL MAX_SPAWN_INTERVAL)
           (set_env_calls (S k)
              (set_gameObjects
                 (gameObjects g ++ spawned_from (S (env_calls g)) n) g))
    ∧ (isRunning g && bool_decide (0 < length (_food g)) = false → n = 0)
    ∧ (isRunning g && bool_decide (0 < length (_food g)) = true →
       Z.of_nat n
       = getRandomNumber (env_calls g) MIN_BUGS_TO_SPAWN MAX_BUGS_TO_SPAWN).
Proof.
  destruct (isRunning g && bool_decide (0 < length (_food g))) eqn:Hgo.
  - unfold spawnBugRandomly. rewrite Hgo.
    destruct (Array_fill_null _) as [arr|] eqn:Harr; [|intros [=]].
    unfold Array_fill_null in Harr. case_bool_decide as Hn; [|done].
    injection Harr as <-. cbn [mbind option_bind].
    rewrite foldl_spawnBug. intros [= <-].
    eexists (Z.to_nat _), (S (env_calls g) + Z.to_nat _).
    split; [reflexivity|]. split; [done|]. intros _. lia.
  - rewrite spawnBugRandomly_idle by done. intros [= <-].
    exists 0, (env_calls g). split; [|done].
    unfold spawned_from. simpl. rewrite app_nil_r. by destruct g.
Qed.

(** What the pause toggle leaves alone: all but the run mode, the call log
    and the icon of the button. *)
Lemma _pauseButtonOnClick_frame g :
  let g' := _pauseButtonOnClick g in
  gameObjects g' = gameObjects g ∧ _time g' = _time g ∧ _score g' = _score g
  ∧ _food g' = _food g ∧ bugManager_food g' = bugManager_food g
  ∧ store g' = store g ∧ timers g' = timers g
  ∧ soundPoint_plays g' = soundPoint_plays g ∧ env_calls g' = env_calls g
  ∧ score_innerHTML (document g') = score_innerHTML (document g)
  ∧ time_innerHTML (document g') = time_innerHTML (document g)
  ∧ welcome_section_hidden (document g')
    = welcome_section_hidden (document g)
  ∧ game_section_hidden (document g') = game_section_hidden (document g).
Proof.
  unfold _pauseButtonOnClick.
  destruct (isPaused g); cbv zeta;
    (destruct (isPaused _); [done|]; destruct (isRunning _); done).
Qed.

(** The icon after the toggle: play when the game is then paused, pause when
    it is then running, untouched otherwise. *)
Lemma _pauseButtonOnClick_icon g :
  let g' := _pauseButtonOnClick g in
  pause_resume_button_src (document g')
  = if bool_decide (runMode g' = Paused) then "assets/graphics/play.png"
    else if bool_decide (runMode g' = Running) then "assets/graphics/pause.png"
    else pause_resume_button_src (document g).
Proof.
  unfold _pauseButtonOnClick.
  set (g1 := if isPaused g then resume g else pause g).
  assert (pause_resume_button_src (document g1)
          = pause_resume_button_src (document g)) as <-
    by (unfold g1; by destruct (isPaused g)).
  cbv zeta. unfold isPaused, isRunning.
  destruct (bool_decide (runMode g1 = Paused)) eqn:Hp; simpl.
  { by rewrite Hp. }
  destruct (bool_decide (runMode g1 = Running)) eqn:Hr; simpl.
  { by rewrite Hp, Hr. }
  by rewrite Hp, Hr.
Qed.

(** The start handler, when it returns: the state [g1] that its spawn cycle
    returned, one tick, then the two sections of the page. *)
Lemma _startButtonOnClick_shape g g' :
  _startButtonOnClick g = Some g' →
  ∃ g1,
    spawnBugRandomly (_initFood (start g)) = Some g1
    ∧ g' = set_document
             (set_game_section_hidden false
                (set_welcome_section_hidden true (document (startTime g1))))
             (startTime g1).
Proof.
  unfold _startButtonOnClick, _spawnBugsRandomly, _startTimeElapsed.
  destruct (spawnBugRandomly _) as [g1|]; [|done].
  cbn [mbind option_bind]. intros [= <-]. exists g1. split; [done|].
  reflexivity.
Qed.

(** The six ways an event is handled. *)
Lemma dispatch_cases e g g' :
  dispatch e g = Some g' →
  (e = StartButtonClick ∧ _startButtonOnClick g = Some g')
  ∨ ((e = PauseButtonClick ∨ e = KeyDown "Space") ∧ g' = _pauseButtonOnClick g)
  ∨ ((∃ code, e = KeyDown code ∧ code ≠ "Space") ∧ g' = g)
  ∨ (∃ offsetX offsetY,
       e = MouseDown offsetX offsetY ∧ g' = TapResolver offsetX offsetY g)
  ∨ (∃ i t, e = Timeout i ∧ timers g !! i = Some t
            ∧ callback t = cb_startTime
            ∧ g' = startTime (set_timers (delete i (timers g)) g))
  ∨ (∃ i t, e = Timeout i ∧ timers g !! i = Some t
            ∧ callback t = cb_spawnBugRandomly
            ∧ spawnBugRandomly (set_timers (delete i (timers g)) g) = Some g').
Proof.
  destruct e as [| |code|offsetX offsetY|i]; simpl.
  - intros ?. by left.
  - intros [= <-]. right. left. split; [by left|done].
  - intros [= <-]. unfold document_onKeyDown. case_bool_decide as Hc.
    + subst code. right. left. split; [by right|done].
    + right. right. left. split; [by exists code|done].
  - intros [= <-]. do 3 right. left. exists offsetX, offsetY.
    split; [done|]. apply _canvasOnMouseClick_TapResolver.
  - destruct (timers g !! i) as [t|] eqn:Ht; [|done].
    cbn [mbind option_bind]. destruct (callback t) eqn:Hcb; simpl.
    + intros Hs. do 5 right. by exists i, t.
    + intros [= <-]. do 4 right. left. by exists i, t.
Qed.

End Shapes.

(** ** What a session never undoes *)

Section Stability.
Context `{E : Engine}.
Implicit Types (g : BugTap) (o : GameObject) (objs : list GameObject).

Lemma gameObjects_tap_outcome offsetX offsetY g :
  gameObjects (tap_outcome offsetX offsetY 0 g)
  = (hit offsetX offsetY <$> gameObjects g)
      ++ omap (marker offsetX offsetY) (gameObjects g).
Proof. unfold tap_outcome. by rewrite drop_0, take_0. Qed.

Lemma hit_same_or_killed offsetX offsetY o :
  same_or_killed o (hit offsetX offsetY o).
Proof.
  destruct (is_target offsetX offsetY o) eqn:Ht.
  - apply is_target_spec in Ht as Hbug. destruct Hbug as (bug & -> & Hal & _).
    right. exists bug. unfold hit. by rewrite Ht.
  - left. destruct o; simpl in *; rewrite ?Ht; done.
Qed.

(** X1: a second tap at the same point changes nothing: the bugs under the
    pointer are dead after the first. *)
Theorem tap_again_changes_nothing offsetX offsetY g :
  _canvasOnMouseClick offsetX offsetY (_canvasOnMouseClick offsetX offsetY g)
  = _canvasOnMouseClick offsetX offsetY g.
Proof.
  destruct (decide (runMode g = Running)) as [Hm|Hm].
  - rewrite (_canvasOnMouseClick_running offsetX offsetY g Hm).
    rewrite _canvasOnMouseClick_running by exact Hm.
    apply tap_outcome_no_target. intros j bug Hj Hov.
    rewrite gameObjects_tap_outcome in Hj.
    apply lookup_tap_objects_bug in Hj as (o & _ & Hhit).
    destruct (is_target offsetX offsetY o) eqn:Ht.
    + apply is_target_spec in Ht as Hbug. destruct Hbug as (bug' & -> & _).
      unfold hit in Hhit. rewrite Ht in Hhit. by injection Hhit as <-.
    + assert (hit offsetX offsetY o = o) as Ho
        by (destruct o; simpl in *; rewrite ?Ht; done).
      rewrite Ho in Hhit. subst o. simpl in Ht. rewrite Hov in Ht.
      exact Ht.
  - rewrite (_canvasOnMouseClick_not_running offsetX offsetY g Hm).
    by apply _canvasOnMouseClick_not_running.
Qed.

Lemma dispatch_same_or_killed e g g' :
  dispatch e g = Some g' →
  length (gameObjects g) ≤ length (gameObjects g')
  ∧ ∀ j o, gameObjects g !! j = Some o →
      ∃ o', gameObjects g' !! j = Some o' ∧ same_or_killed o o'.
Proof.
  intros Hd.
  destruct e as [| |code|offsetX offsetY|i];
    try (destruct (dispatch_grows _ g g' Hd) as (extra & -> & _); [done|];
         split; [rewrite length_app; lia|];
         intros j o Hj; exists o; split; [by apply lookup_app_l_Some|by left]).
  rewrite dispatch_MouseDown in Hd. injection Hd as <-.
  unfold TapResolver. case_bool_decide.
  - rewrite gameObjects_tap_outcome. split.
    + rewrite length_app, length_fmap. lia.
    + intros j o Hj. exists (hit offsetX offsetY o).
      split; [by apply lookup_tap_objects|apply hit_same_or_killed].
  - split; [done|]. intros j o Hj. exists o. split; [done|by left].
Qed.

(** X2: no sequence of events removes a game object or moves it: every
    object stays at its index, as it was or, for a bug that was alive, dead;
    the array only grows. *)
Theorem game_objects_stay_in_place es g g' :
  run es g = Some g' →
  length (gameObjects g) ≤ length (gameObjects g')
  ∧ ∀ j o, gameObjects g !! j = Some o →
      ∃ o', gameObjects g' !! j = Some o' ∧ same_or_killed o o'.
Proof.
  revert g. induction es as [|e es IH]; intros g; simpl.
  - intros [= <-]. split; [done|]. intros j o Hj. exists o. by split; [|left].
  - destruct (dispatch e g) as [g1|] eqn:Hd; [|done]. simpl. intros Hr.
    destruct (dispatch_same_or_killed _ _ _ Hd) as [Hlen1 Hstep].
    destruct (IH _ Hr) as [Hlen Hrest]. split; [lia|].
    intros j o Hj. destruct (Hstep _ _ Hj) as (o1 & Hj1 & Ho1).
    destruct (Hrest _ _ Hj1) as (o' & Hj' & Ho'). exists o'. split; [done|].
    destruct Ho1 as [->|(bug & -> & Hal & ->)]; [done|].
    destruct Ho' as [->|(bug' & [= <-] & Hal' & _)].
    + right. by exists bug.
    + done.
Qed.

(** X3: only the start button, the pause button and the Space key reach the
    engine: a tap, a timer or any other key leaves the run mode and the log
    of calls to [start()], [pause()] and [resume()] as they are. *)
Theorem run_mode_moved_by_buttons_only e g g' :
  dispatch e g = Some g' →
  e ≠ StartButtonClick → e ≠ PauseButtonClick → e ≠ KeyDown "Space" →
  runMode g' = runMode g ∧ calls g' = calls g.
Proof.
  intros Hd Hs Hp Hk.
  destruct (dispatch_cases _ _ _ Hd)
    as [[-> _]|[[[->| ->] _]|[[_ ->]|[(offsetX & offsetY & -> & ->)
       |[(i & t & -> & Ht & Hcb & ->)|(i & t & -> & Ht & Hcb & Hsp)]]]]];
    try done.
  - unfold TapResolver. by case_bool_decide.
  - by destruct (startTime_core (set_timers (delete i (timers g)) g))
      as (_ & _ & _ & _ & -> & _ & ->).
  - by apply spawnBugRandomly_shape in Hsp as (n & k & -> & _).
Qed.

Lemma _time_startTime g :
  _time (startTime g)
  = if bool_decide (runMode g = Paused) then _time g else (_time g + 1)%Z.
Proof.
  case_bool_decide.
  - by rewrite startTime_paused.
  - by rewrite startTime_not_paused.
Qed.

Lemma _time_TapResolver offsetX offsetY g :
  _time (TapResolver offsetX offsetY g) = _time g.
Proof. unfold TapResolver. by case_bool_decide. Qed.

Lemma _time_after_wave cb d k objs g :
  _time (setTimeout cb d (set_env_calls k (set_gameObjects objs g)))
  = _time g.
Proof. reflexivity. Qed.

Lemma _time__initFood_start g : _time (_initFood (start g)) = _time g.
Proof. reflexivity. Qed.

Lemma _time_set_document d g : _time (set_document d g) = _time g.
Proof. reflexivity. Qed.

Lemma _time_set_timers ts g : _time (set_timers ts g) = _time g.
Proof. reflexivity. Qed.

Lemma _time_dispatch e g g' :
  dispatch e g = Some g' → (_time g ≤ _time g' ≤ _time g + 1)%Z.
Proof.
  intros Hd.
  destruct (dispatch_cases _ _ _ Hd)
    as [[-> Hs]|[[_ ->]|[[_ ->]|[(offsetX & offsetY & -> & ->)
       |[(i & t & -> & Ht & Hcb & ->)|(i & t & -> & Ht & Hcb & Hsp)]]]]].
  - apply _startButtonOnClick_shape in Hs as (g1 & Hsp & ->).
    apply spawnBugRandomly_shape in Hsp as (n & k & -> & _).
    rewrite _time_set_document, _time_startTime, _time_after_wave,
      _time__initFood_start.
    case_bool_decide; lia.
  - destruct (_pauseButtonOnClick_frame g) as (_ & -> & _). lia.
  - lia.
  - rewrite _time_TapResolver. lia.
  - rewrite _time_startTime, _time_set_timers.
    case_bool_decide; lia.
  - apply spawnBugRandomly_shape in Hsp as (n & k & -> & _).
    rewrite _time_after_wave, _time_set_timers. lia.
Qed.

(** X4: the clock never goes back, and no event advances it by more than
    one second. *)
Theorem clock_never_goes_back es g g' :
  run es g = Some g' →
  (_time g ≤ _time g' ≤ _time g + Z.of_nat (length es))%Z.
Proof.
  revert g. induction es as [|e es IH]; intros g; simpl.
  - intros [= <-]. lia.
  - destruct (dispatch e g) as [g1|] eqn:Hd; [|done]. simpl. intros Hr.
    pose proof (_time_dispatch _ _ _ Hd). pose proof (IH _ Hr). lia.
Qed.

End Stability.

(** ** The page and the store mirror the counters *)

Section Mirror.
Context `{E : Engine}.
Implicit Types (g : BugTap) (page : Document).

Lemma Mirrored_same_view page g g' :
  same_view g' g → Mirrored page g → Mirrored page g'.
Proof.
  intros (Ht & Hs & Hp & Hst & Hsc & Hti) [Hnn Hstore Hscore Htime].
  split.
  - by rewrite Ht.
  - intros key. rewrite Hst, Hstore. unfold stored_for.
    by rewrite Ht, Hs, Hp.
  - rewrite Hsc, Hscore. unfold score_text_for. by rewrite Hs, Hp.
  - rewrite Hti, Htime. unfold time_text_for. by rewrite Ht.
Qed.

Lemma same_view_after_wave cb d k objs g :
  same_view (setTimeout cb d (set_env_calls k (set_gameObjects objs g))) g.
Proof. by repeat split. Qed.

Lemma same_view__initFood_start g : same_view (_initFood (start g)) g.
Proof. by repeat split. Qed.

Lemma same_view_sections g :
  same_view
    (set_document
       (set_game_section_hidden false
          (set_welcome_section_hidden true (document g))) g) g.
Proof. by repeat split. Qed.

Lemma same_view_set_timers ts g : same_view (set_timers ts g) g.
Proof. by repeat split. Qed.

Lemma same_view__pauseButtonOnClick g : same_view (_pauseButtonOnClick g) g.
Proof.
  destruct (_pauseButtonOnClick_frame g)
    as (_ & ? & ? & _ & _ & ? & _ & ? & _ & ? & ? & _).
  by repeat split.
Qed.

Lemma Mirrored_new_BugTap page localStorage :
  Mirrored page (new_BugTap page localStorage).
Proof.
  split; try done. intros key. cbn [store new_BugTap clearStore set_store].
  rewrite lookup_empty. unfold stored_for. cbn [soundPoint_plays _time
    new_BugTap clearStore set_store addGameObject set_gameObjects].
  by repeat case_decide.
Qed.

Lemma Mirrored_startTime page g :
  Mirrored page g → Mirrored page (startTime g).
Proof.
  intros Hg. destruct (decide (runMode g = Paused)) as [Hm|Hm].
  { rewrite startTime_paused by done.
    eapply Mirrored_same_view; [|exact Hg]. by repeat split. }
  rewrite startTime_not_paused by done.
  destruct Hg as [Hnn Hstore Hscore Htime].
  destruct g as [mode objs time score food mfood st doc ts plays cs n].
  cbn in Hnn, Hstore, Hscore, Htime.
  assert (time + 1 ≠ 0)%Z as Hpos by lia.
  split.
  - cbn. lia.
  - intros key. cbn [store setTimeout set_timers addToStore set_store].
    unfold stored_for. cbn [soundPoint_plays _time _score].
    destruct (decide (key = "score")) as [->|Hk1].
    + rewrite lookup_insert_ne by done. rewrite Hstore. unfold stored_for.
      cbn [soundPoint_plays _score]. by rewrite decide_True.
    + destruct (decide (key = "time")) as [->|Hk2].
      * rewrite lookup_insert_eq. by rewrite decide_False.
      * rewrite lookup_insert_ne by done. rewrite Hstore. unfold stored_for.
        by rewrite !decide_False.
  - cbn. rewrite Hscore. done.
  - cbn. unfold time_text_for. cbn [_time]. by rewrite decide_False.
Qed.

Lemma Mirrored_TapResolver page offsetX offsetY g :
  Mirrored page g → Mirrored page (TapResolver offsetX offsetY g).
Proof.
  intros Hg. unfold TapResolver. case_bool_decide; [|done].
  destruct (targets_from offsetX offsetY 0 (gameObjects g)) as [|j js] eqn:Hts.
  { assert (tap_outcome offsetX offsetY 0 g = g) as ->; [|done].
    apply tap_outcome_no_target. intros j bug Hj Hov.
    destruct (alive bug) eqn:Hal; [|done].
    assert (j ∈ tap_targets offsetX offsetY (gameObjects g)) as Hin.
    { apply elem_of_tap_targets. exists (GBug bug). split; [done|].
      simpl. unfold isAlive. by rewrite Hov, Hal. }
    unfold tap_targets in Hin. rewrite Hts in Hin.
    by apply elem_of_nil in Hin. }
  destruct Hg as [Hnn Hstore Hscore Htime].
  assert (soundPoint_plays g ++ j :: js ≠ []) as Hne
    by (by destruct (soundPoint_plays g)).
  unfold tap_outcome. rewrite drop_0, Hts. split.
  - done.
  - intros key. cbn [store]. unfold stored_for.
    cbn [soundPoint_plays _time _score].
    destruct (decide (key = "score")) as [->|Hk1].
    + rewrite lookup_insert_eq. by rewrite decide_False.
    + rewrite lookup_insert_ne by done. rewrite Hstore. unfold stored_for.
      by rewrite (decide_False (P := key = "score")).
  - cbn [document score_innerHTML set_score_innerHTML]. unfold score_text_for.
    cbn [soundPoint_plays _score]. by rewrite decide_False.
  - cbn [document time_innerHTML set_score_innerHTML]. rewrite Htime. done.
Qed.

Lemma Mirrored_dispatch page e g g' :
  Mirrored page g → dispatch e g = Some g' → Mirrored page g'.
Proof.
  intros Hg Hd.
  destruct (dispatch_cases _ _ _ Hd)
    as [[-> Hs]|[[_ ->]|[[_ ->]|[(offsetX & offsetY & -> & ->)
       |[(i & t & -> & Ht & Hcb & ->)|(i & t & -> & Ht & Hcb & Hsp)]]]]].
  - apply _startButtonOnClick_shape in Hs as (g1 & Hsp & ->).
    apply spawnBugRandomly_shape in Hsp as (n & k & -> & _).
    eapply Mirrored_same_view; [apply same_view_sections|].
    apply Mirrored_startTime.
    eapply Mirrored_same_view; [apply same_view_after_wave|].
    eapply Mirrored_same_view; [apply same_view__initFood_start|]. done.
  - eapply Mirrored_same_view; [apply same_view__pauseButtonOnClick|done].
  - done.
  - by apply Mirrored_TapResolver.
  - apply Mirrored_startTime.
    eapply Mirrored_same_view; [apply same_view_set_timers|done].
  - apply spawnBugRandomly_shape in Hsp as (n & k & -> & _).
    eapply Mirrored_same_view; [apply same_view_after_wave|].
    eapply Mirrored_same_view; [apply same_view_set_timers|done].
Qed.

Lemma Mirrored_run page es g g' :
  Mirrored page g → run es g = Some g' → Mirrored page g'.
Proof.
  revert g. induction es as [|e es IH]; intros g Hg; simpl.
  - by intros [= <-].
  - destruct (dispatch e g) as [g1|] eqn:Hd; [|done]. simpl.
    apply IH. by eapply Mirrored_dispatch.
Qed.

(** X5: in every state reached from the constructor the persistent store
    holds exactly what the counters say: the score, in decimal, under
    ["score"] once a bug has been scored and nothing there before; the
    elapsed seconds under ["time"] once the clock has moved and nothing there
    before; and no other key. *)
Theorem store_mirrors_counters page localStorage es g :
  run es (new_BugTap page localStorage) = Some g →
  (soundPoint_plays g = [] → store g !! "score" = None)
  ∧ (soundPoint_plays g ≠ [] →
     store g !! "score" = Some (toString (_score g)))
  ∧ (_time g = 0%Z → store g !! "time" = None)
  ∧ (_time g ≠ 0%Z → store g !! "time" = Some (toString (_time g)))
  ∧ (∀ key, key ≠ "score" → key ≠ "time" → store g !! key = None).
Proof.
  intros Hrun.
  destruct (Mirrored_run page _ _ _ (Mirrored_new_BugTap page localStorage)
              Hrun) as [_ Hstore _ _].
  repeat split.
  - intros Hp. rewrite Hstore. unfold stored_for.
    rewrite decide_True by done. by rewrite decide_True.
  - intros Hp. rewrite Hstore. unfold stored_for.
    rewrite decide_True by done. by rewrite decide_False.
  - intros Ht. rewrite Hstore. unfold stored_for.
    rewrite decide_False by done. rewrite decide_True by done.
    by rewrite decide_True.
  - intros Ht. rewrite Hstore. unfold stored_for.
    rewrite decide_False by done. rewrite decide_True by done.
    by rewrite decide_False.
  - intros key Hk1 Hk2. rewrite Hstore. unfold stored_for.
    by rewrite !decide_False.
Qed.

(** X6: in every state reached from the constructor the page shows what the
    counters say: [#score] has the text the page was loaded with until a bug
    is scored and ["Score: "] followed by the score from then on; [#time]
    has the text the page was loaded with until the clock moves and
    ["Time: "] followed by the formatted elapsed seconds from then on. *)
Theorem page_mirrors_counters page localStorage es g :
  run es (new_BugTap page localStorage) = Some g →
  (soundPoint_plays g = [] →
   score_innerHTML (document g) = score_innerHTML page)
  ∧ (soundPoint_plays g ≠ [] →
     score_innerHTML (document g) = "Score: " +:+ toString (_score g))
  ∧ (_time g = 0%Z → time_innerHTML (document g) = time_innerHTML page)
  ∧ (_time g ≠ 0%Z →
     time_innerHTML (document g) = "Time: " +:+ formatSeconds (_time g)).
Proof.
  intros Hrun.
  destruct (Mirrored_run page _ _ _ (Mirrored_new_BugTap page localStorage)
              Hrun) as [_ _ Hscore Htime].
  repeat split.
  - intros Hp. rewrite Hscore. unfold score_text_for. by rewrite decide_True.
  - intros Hp. rewrite Hscore. unfold score_text_for. by rewrite decide_False.
  - intros Ht. rewrite Htime. unfold time_text_for. by rewrite decide_True.
  - intros Ht. rewrite Htime. unfold time_text_for. by rewrite decide_False.
Qed.

End Mirror.

(** ** The timer loops and the food over a session *)

Section Loops.
Context `{E : Engine}.
Implicit Types (g : BugTap) (ts : list Timer).

Lemma count_callback_app cb ts ts' :
  count_callback cb (ts ++ ts') = count_callback cb ts + count_callback cb ts'.
Proof. unfold count_callback. by rewrite filter_app, length_app. Qed.

(** A timer that fires and is set again for the same callback. *)
Lemma count_callback_refired cb ts i t t' :
  ts !! i = Some t → callback t' = callback t →
  count_callback cb (delete i ts ++ [t']) = count_callback cb ts.
Proof.
  intros Ht Hcb. rewrite count_callback_app. unfold count_callback.
  pose proof (delete_Permutation ts i t Ht) as Hp.
  apply (filter_Permutation (λ t, callback t = cb)) in Hp.
  apply Permutation_length in Hp. rewrite Hp.
  rewrite !filter_cons, filter_nil, Hcb. simpl.
  case_decide; simpl; lia.
Qed.

Lemma count_starts_snoc cs c :
  count_starts (cs ++ [c])
  = count_starts cs + (if decide (c = CallStart) then 1 else 0).
Proof.
  unfold count_starts. rewrite filter_app, length_app, filter_cons, filter_nil.
  by case_decide.
Qed.

Lemma timers_startTime g :
  timers (startTime g)
  = timers g ++ [{| callback := cb_startTime; delay := 1000 |}]
  ∧ calls (startTime g) = calls g.
Proof. unfold startTime. by destruct (negb (isPaused g)). Qed.

Lemma calls__pauseButtonOnClick g :
  ∃ c, c ≠ CallStart ∧ calls (_pauseButtonOnClick g) = calls g ++ [c].
Proof.
  destruct (_pauseButtonOnClick_shape g) as [d ->].
  destruct (isPaused g); [by exists CallResume|by exists CallPause].
Qed.

Lemma timers_after_wave cb d k objs g :
  timers (setTimeout cb d (set_env_calls k (set_gameObjects objs g)))
  = timers g ++ [{| callback := cb; delay := d |}]
  ∧ calls (setTimeout cb d (set_env_calls k (set_gameObjects objs g)))
    = calls g.
Proof. done. Qed.

Lemma timers__initFood_start g :
  timers (_initFood (start g)) = timers g
  ∧ calls (_initFood (start g)) = calls g ++ [CallStart].
Proof. done. Qed.

Lemma timers_set_document d g :
  timers (set_document d g) = timers g ∧ calls (set_document d g) = calls g.
Proof. done. Qed.

Lemma timers_TapResolver offsetX offsetY g :
  timers (TapResolver offsetX offsetY g) = timers g
  ∧ calls (TapResolver offsetX offsetY g) = calls g.
Proof. unfold TapResolver. by case_bool_decide. Qed.

(** The start handler sets one timer of each loop and calls [start()] once. *)
Lemma timers__startButtonOnClick g g' :
  _startButtonOnClick g = Some g' →
  ∃ k,
    timers g'
    = timers g
      ++ [{| callback := cb_spawnBugRandomly;
             delay := getRandomNumber k MIN_SPAWN_INTERVAL MAX_SPAWN_INTERVAL |};
          {| callback := cb_startTime; delay := 1000 |}]
    ∧ calls g' = calls g ++ [CallStart].
Proof.
  intros Hs. apply _startButtonOnClick_shape in Hs as (g1 & Hsp & ->).
  apply spawnBugRandomly_shape in Hsp as (n & k & -> & _). exists k.
  rewrite (proj1 (timers_set_document _ _)), (proj2 (timers_set_document _ _)).
  rewrite (proj1 (timers_startTime _)), (proj2 (timers_startTime _)).
  rewrite (proj1 (timers_after_wave _ _ _ _ _)),
    (proj2 (timers_after_wave _ _ _ _ _)).
  rewrite (proj1 (timers__initFood_start _)),
    (proj2 (timers__initFood_start _)).
  by rewrite <- app_assoc.
Qed.

Lemma Looping_new_BugTap page localStorage :
  Looping (new_BugTap page localStorage).
Proof. split; [done|done|constructor]. Qed.

Lemma Looping_dispatch e g g' :
  Looping g → dispatch e g = Some g' → Looping g'.
Proof.
  intros [Hspawn Htick Hdelays] Hd.
  destruct (dispatch_cases _ _ _ Hd)
    as [[-> Hs]|[[_ ->]|[[_ ->]|[(offsetX & offsetY & -> & ->)
       |[(i & t & -> & Ht & Hcb & ->)|(i & t & -> & Ht & Hcb & Hsp)]]]]].
  - apply timers__startButtonOnClick in Hs as (k & Hts & Hcs).
    split; rewrite Hts, ?Hcs, ?count_starts_snoc, ?decide_True by done.
    + rewrite count_callback_app, Hspawn. done.
    + rewrite count_callback_app, Htick. done.
    + apply Forall_app. split; [done|].
      repeat constructor. by exists k.
  - destruct (calls__pauseButtonOnClick g) as (c & Hc & Hcs).
    destruct (_pauseButtonOnClick_frame g)
      as (_ & _ & _ & _ & _ & _ & Hts & _).
    split; rewrite Hts, ?Hcs, ?count_starts_snoc, ?decide_False,
      ?Nat.add_0_r by done; done.
  - by split.
  - destruct (timers_TapResolver offsetX offsetY g) as [Hts Hcs].
    split; rewrite Hts, ?Hcs; done.
  - destruct (timers_startTime (set_timers (delete i (timers g)) g))
      as [Hts Hcs].
    split; rewrite Hts, ?Hcs; cbn [timers calls set_timers].
    + by rewrite (count_callback_refired _ _ _ _ _ Ht).
    + by rewrite (count_callback_refired _ _ _ _ _ Ht).
    + apply Forall_app. split; [by apply Forall_delete|].
      by repeat constructor.
  - apply spawnBugRandomly_shape in Hsp as (n & k & -> & _).
    destruct (timers_after_wave cb_spawnBugRandomly
      (getRandomNumber k MIN_SPAWN_INTERVAL MAX_SPAWN_INTERVAL) (S k)
      (gameObjects (set_timers (delete i (timers g)) g)
         ++ spawned_from (S (env_calls (set_timers (delete i (timers g)) g))) n)
      (set_timers (delete i (timers g)) g)) as [Hts Hcs].
    split; rewrite Hts, ?Hcs; cbn [timers calls set_timers].
    + by rewrite (count_callback_refired _ _ _ _ _ Ht).
    + by rewrite (count_callback_refired _ _ _ _ _ Ht).
    + apply Forall_app. split; [by apply Forall_delete|].
      repeat constructor. by exists k.
Qed.

Lemma Looping_run es g g' : Looping g → run es g = Some g' → Looping g'.
Proof.
  revert g. induction es as [|e es IH]; intros g Hg; simpl.
  - by intros [= <-].
  - destruct (dispatch e g) as [g1|] eqn:Hd; [|done]. simpl.
    apply IH. by eapply Looping_dispatch.
Qed.

(** X7: the controller keeps one spawn loop and one clock loop alive per
    call of [start()]: in every state reached from the constructor the
    pending timers hold as many spawn cycles, and as many ticks, as
    [start()] was called, so none before the start click and two of each
    after a second one; every pending tick is set to one second, and every
    pending spawn cycle to a delay within 800 and 1500 ms when
    [getRandomNumber] keeps to its bounds. *)
Theorem one_loop_pair_per_start page localStorage es g :
  run es (new_BugTap page localStorage) = Some g →
  count_callback cb_spawnBugRandomly (timers g) = count_starts (calls g)
  ∧ count_callback cb_startTime (timers g) = count_starts (calls g)
  ∧ (∀ t, t ∈ timers g → callback t = cb_startTime → delay t = 1000%Z)
  ∧ (RandomRange →
     ∀ t, t ∈ timers g → callback t = cb_spawnBugRandomly →
          (800 ≤ delay t ≤ 1500)%Z).
Proof.
  intros Hrun.
  destruct (Looping_run _ _ _ (Looping_new_BugTap page localStorage) Hrun)
    as [Hspawn Htick Hdelays].
  rewrite Forall_forall in Hdelays.
  split; [done|]. split; [done|]. split.
  - intros t Ht Hcb. specialize (Hdelays _ Ht). unfold set_by_a_loop in Hdelays.
    by rewrite Hcb in Hdelays.
  - intros Hrand t Ht Hcb. specialize (Hdelays _ Ht).
    unfold set_by_a_loop in Hdelays. rewrite Hcb in Hdelays.
    destruct Hdelays as [k ->]. by apply Hrand.
Qed.

(** *** The food *)

Lemma Fed_new_BugTap page localStorage : Fed (new_BugTap page localStorage).
Proof. split; [done| |by left]. by intros food ?%elem_of_nil. Qed.

Lemma _food_TapResolver offsetX offsetY g :
  _food (TapResolver offsetX offsetY g) = _food g
  ∧ bugManager_food (TapResolver offsetX offsetY g) = bugManager_food g.
Proof. unfold TapResolver. by case_bool_decide. Qed.

Lemma _food_after_wave cb d k objs g :
  _food (setTimeout cb d (set_env_calls k (set_gameObjects objs g))) = _food g
  ∧ bugManager_food
      (setTimeout cb d (set_env_calls k (set_gameObjects objs g)))
    = bugManager_food g.
Proof. done. Qed.

Lemma _food_set_timers ts g :
  _food (set_timers ts g) = _food g
  ∧ bugManager_food (set_timers ts g) = bugManager_food g.
Proof. done. Qed.

Lemma Fed_dispatch e g g' : Fed g → dispatch e g = Some g' → Fed g'.
Proof.
  intros [Hman Hobjs Hgen] Hd.
  assert (∀ food, GFood food ∈ gameObjects g → GFood food ∈ gameObjects g')
    as Hkept.
  { intros food [j Hj]%list_elem_of_lookup.
    destruct (proj2 (dispatch_same_or_killed _ _ _ Hd) _ _ Hj)
      as (o' & Hj' & [->|(bug & [=] & _)]).
    by eapply list_elem_of_lookup_2. }
  destruct (dispatch_cases _ _ _ Hd)
    as [[-> Hs]|[[_ ->]|[[_ ->]|[(offsetX & offsetY & -> & ->)
       |[(i & t & -> & Ht & Hcb & ->)|(i & t & -> & Ht & Hcb & Hsp)]]]]].
  - destruct (_startButtonOnClick_Some _ _ Hs)
      as (n & Hfood & Hman' & Hobjs' & _).
    split; [done| |right; by eexists].
    intros food Hin. rewrite Hobjs'. apply elem_of_app. right.
    apply elem_of_app. left. apply list_elem_of_fmap. by exists food.
  - destruct (_pauseButtonOnClick_frame g)
      as (_ & _ & _ & Hf & Hm & _).
    split; rewrite ?Hf, ?Hm; [done| |done]. intros food Hin.
    apply Hkept. by apply Hobjs.
  - by split.
  - destruct (_food_TapResolver offsetX offsetY g) as [Hf Hm].
    split; rewrite ?Hf, ?Hm; [done| |done]. intros food Hin.
    apply Hkept. by apply Hobjs.
  - destruct (startTime_core (set_timers (delete i (timers g)) g))
      as (_ & _ & _ & Hf & _ & Hm & _).
    split; rewrite ?Hf, ?Hm; [done| |done]. intros food Hin.
    apply Hkept. by apply Hobjs.
  - apply spawnBugRandomly_shape in Hsp as Hshape.
    destruct Hshape as (n & k & Hg' & _).
    assert (_food g' = _food g ∧ bugManager_food g' = bugManager_food g)
      as [Hf Hm] by (rewrite Hg'; done).
    split; rewrite ?Hf, ?Hm; [done| |done]. intros food Hin.
    apply Hkept. by apply Hobjs.
Qed.

Lemma Fed_run es g g' : Fed g → run es g = Some g' → Fed g'.
Proof.
  revert g. induction es as [|e es IH]; intros g Hg; simpl.
  - by intros [= <-].
  - destruct (dispatch e g) as [g1|] eqn:Hd; [|done]. simpl.
    apply IH. by eapply Fed_dispatch.
Qed.

(** X8: in every state reached from the constructor the bug manager holds
    the very food the game holds, every piece of that food is among the game
    objects, and the food is either none (before the first start) or what
    one call of [generate(10)] returned. *)
Theorem bug_manager_food_is_game_food page localStorage es g :
  run es (new_BugTap page localStorage) = Some g →
  bugManager_food g = _food g
  ∧ (∀ food, food ∈ _food g → GFood food ∈ gameObjects g)
  ∧ (_food g = [] ∨ ∃ k, _food g = FoodManager_generate k AMOUNT_OF_FOOD).
Proof.
  intros Hrun.
  destruct (Fed_run _ _ _ (Fed_new_BugTap page localStorage) Hrun)
    as [? ? ?].
  done.
Qed.

End Loops.

(** ** The pause toggle, twice *)

Section Toggle.
Context `{E : Engine}.
Implicit Types (g : BugTap).

(** X9: on a running game, with an engine whose [pause()] takes Running to
    Paused and whose [resume()] takes Paused to Running, one toggle pauses
    the game and shows the play icon, and a second toggle brings the game
    back: running again, the pause icon shown, [pause()] then [resume()]
    called, and the game objects, the clock, the score, the food, the store,
    the pending timers and the rest of the page as they were. *)
Theorem toggle_twice_round_trip g :
  Game_pause Running = Paused → Game_resume Paused = Running →
  runMode g = Running →
  let g1 := _pauseButtonOnClick g in
  let g2 := _pauseButtonOnClick g1 in
  runMode g1 = Paused
  ∧ pause_resume_button_src (document g1) = "assets/graphics/play.png"
  ∧ runMode g2 = Running
  ∧ pause_resume_button_src (document g2) = "assets/graphics/pause.png"
  ∧ calls g2 = calls g ++ [CallPause; CallResume]
  ∧ gameObjects g2 = gameObjects g ∧ _time g2 = _time g
  ∧ _score g2 = _score g ∧ _food g2 = _food g ∧ store g2 = store g
  ∧ timers g2 = timers g ∧ soundPoint_plays g2 = soundPoint_plays g
  ∧ score_innerHTML (document g2) = score_innerHTML (document g)
  ∧ time_innerHTML (document g2) = time_innerHTML (document g).
Proof.
  intros Hpause Hresume Hm g1 g2.
  assert (runMode g1 = Paused ∧ calls g1 = calls g ++ [CallPause]) as [Hm1 Hc1].
  { destruct (_pauseButtonOnClick_shape g) as [d Hd]. unfold g1. rewrite Hd.
    unfold isPaused. rewrite Hm. simpl. by rewrite Hm, Hpause. }
  assert (runMode g2 = Running ∧ calls g2 = calls g1 ++ [CallResume])
    as [Hm2 Hc2].
  { destruct (_pauseButtonOnClick_shape g1) as [d Hd]. unfold g2. rewrite Hd.
    unfold isPaused. rewrite Hm1. simpl. by rewrite Hm1, Hresume. }
  pose proof (_pauseButtonOnClick_icon g) as Hi1.
  pose proof (_pauseButtonOnClick_icon g1) as Hi2. cbv zeta in Hi1, Hi2.
  fold g1 in Hi1. fold g2 in Hi2. rewrite Hm1 in Hi1. rewrite Hm2 in Hi2.
  destruct (_pauseButtonOnClick_frame g)
    as (Ho & Ht & Hs & Hf & _ & Hst & Hts & Hp & _ & Hsc & Hti & _).
  destruct (_pauseButtonOnClick_frame g1)
    as (Ho' & Ht' & Hs' & Hf' & _ & Hst' & Hts' & Hp' & _ & Hsc' & Hti' & _).
  cbv zeta in *. fold g1 in Ho, Ht, Hs, Hf, Hst, Hts, Hp, Hsc, Hti.
  fold g1 g2 in Ho', Ht', Hs', Hf', Hst', Hts', Hp', Hsc', Hti'.
  split; [done|]. split; [done|]. split; [done|]. split; [done|].
  split; [by rewrite Hc2, Hc1, <- app_assoc|].
  repeat split; congruence.
Qed.

End Toggle.

(** ** The clock text *)

Section ClockText.
Context `{E : Engine}.

Lemma string_length_app (a b : string) :
  String.length (a +:+ b) = String.length a + String.length b.
Proof. induction a as [|c a IH]; simpl; [done|]. by rewrite IH. Qed.

(** Two strings with tails of the same length are equal part by part. *)
Lemma string_app_inj (a a' b b' : string) :
  a +:+ b = a' +:+ b' → String.length b = String.length b' →
  a = a' ∧ b = b'.
Proof.
  revert a'. induction a as [|c a IH]; intros [|c' a'] Heq Hlen; simpl in Heq.
  - done.
  - exfalso. apply (f_equal String.length) in Heq.
    rewrite !string_length_app in Heq. simpl in Heq. lia.
  - exfalso. apply (f_equal String.length) in Heq.
    rewrite !string_length_app in Heq. simpl in Heq. lia.
  - injection Heq as -> Heq. destruct (IH _ Heq Hlen) as [-> ->]. done.
Qed.

(** From ten to fifty-nine the decimal form does not start with a zero. *)
Lemma toString_no_leading_zero r s :
  (10 ≤ r < 60)%Z → toString r ≠ "0" +:+ s.
Proof.
  intros Hr. rewrite <- (Z2Nat.id r) by lia.
  assert (10 ≤ Z.to_nat r < 60) as Hn by lia.
  generalize dependent (Z.to_nat r). clear. intros n Hn.
  do 10 (destruct n as [|n]; [lia|]).
  do 50 (destruct n as [|n]; [by vm_compute|]). lia.
Qed.

Lemma padded_seconds_inj r r' :
  (0 ≤ r < 60)%Z → (0 ≤ r' < 60)%Z →
  (if bool_decide (r < 10)%Z then "0" +:+ toString r else toString r)
  = (if bool_decide (r' < 10)%Z then "0" +:+ toString r' else toString r') →
  r = r'.
Proof.
  intros Hr Hr'. do 2 case_bool_decide.
  - intros [= Heq]. exact (pretty_Z_inj _ _ Heq).
  - intros Heq. symmetry in Heq.
    by apply toString_no_leading_zero in Heq; [|lia].
  - intros Heq. by apply toString_no_leading_zero in Heq; [|lia].
  - intros Heq. exact (pretty_Z_inj _ _ Heq).
Qed.

(** X10: two different numbers of elapsed seconds are never shown as the
    same text: [formatSeconds] is injective on the non-negative integers. *)
Theorem formatSeconds_injective seconds seconds' :
  (0 ≤ seconds)%Z → (0 ≤ seconds')%Z →
  formatSeconds seconds = formatSeconds seconds' → seconds = seconds'.
Proof.
  intros Hs Hs' Heq.
  destruct (formatSeconds_spec seconds Hs) as (ss & Hf & Hlen & Hss).
  destruct (formatSeconds_spec seconds' Hs') as (ss' & Hf' & Hlen' & Hss').
  rewrite Hf, Hf' in Heq.
  apply string_app_inj in Heq as [Hmin Hsec];
    [|by rewrite !string_length_app, Hlen, Hlen'].
  apply pretty_Z_inj in Hmin. injection Hsec as Hsec.
  rewrite Hss, Hss' in Hsec.
  apply padded_seconds_inj in Hsec;
    [|by apply Z.mod_pos_bound|by apply Z.mod_pos_bound].
  rewrite (Z.div_mod seconds 60), (Z.div_mod seconds' 60) by lia.
  by rewrite Hmin, Hsec.
Qed.

End ClockText.

(** ** When a handler raises *)

Section Raising.
Context `{E : Engine}.
Implicit Types (g : BugTap).

Lemma spawnBugRandomly_total g : RandomRange → is_Some (spawnBugRandomly g).
Proof.
  intros Hrand.
  destruct (isRunning g && bool_decide (0 < length (_food g))) eqn:Hgo.
  - destruct (spawnBugRandomly_wave_size g Hrand Hgo) as (g' & n & -> & _).
    done.
  - by rewrite spawnBugRandomly_idle.
Qed.

(** X11: a spawn cycle raises (the [RangeError] of [Array(n)]), and then
    sets no timer for a next cycle, exactly when the game is running, there
    is food, and the drawn number of bugs is not a valid array length.  A
    drawn number of zero is no error: the cycle spawns nothing and sets its
    timer. *)
Theorem spawn_cycle_raises_iff g :
  let n := getRandomNumber (env_calls g) MIN_BUGS_TO_SPAWN MAX_BUGS_TO_SPAWN in
  (spawnBugRandomly g = None ↔
   runMode g = Running ∧ _food g ≠ [] ∧ ¬ (0 ≤ n < 2 ^ 32)%Z)
  ∧ (runMode g = Running → _food g ≠ [] → n = 0%Z →
     ∃ g', spawnBugRandomly g = Some g'
       ∧ gameObjects g' = gameObjects g
       ∧ length (timers g') = S (length (timers g))).
Proof.
  intros n. split.
  - destruct (isRunning g && bool_decide (0 < length (_food g))) eqn:Hgo.
    + apply spawn_guard_true in Hgo as Hyes. destruct Hyes as [Hm Hf].
      destruct (decide (0 ≤ n < 2 ^ 32)%Z) as [Hn|Hn].
      * rewrite spawnBugRandomly_wave by done. split; [done|].
        by intros (_ & _ & ?).
      * split; [done|]. intros _. unfold spawnBugRandomly. rewrite Hgo.
        unfold Array_fill_null. fold n. by rewrite bool_decide_eq_false_2.
    + rewrite spawnBugRandomly_idle by done. split; [done|].
      intros (Hm & Hf & _). apply spawn_guard_false in Hgo. by destruct Hgo.
  - intros Hm Hf Hn.
    assert (isRunning g && bool_decide (0 < length (_food g)) = true) as Hgo
      by (by apply spawn_guard_true).
    rewrite spawnBugRandomly_wave by (done || (fold n; lia)).
    eexists. split; [done|]. fold n. rewrite Hn. simpl.
    rewrite app_nil_r, length_app. simpl. split; [done|lia].
Qed.


End Raising.

(** ** The earlier revision *)

Section Earlier.
Context `{E : Engine}.
Implicit Types (g : BugTap).

Lemma Legacy_spawnBugRandomly_idle g :
  runMode g = Paused →
  Legacy.spawnBugRandomly g
  = Some (setTimeout cb_spawnBugRandomly
            (getRandomNumber (env_calls g) MIN_SPAWN_INTERVAL MAX_SPAWN_INTERVAL)
            (env_called g)).
Proof.
  intros Hm. unfold Legacy.spawnBugRandomly, isPaused.
  by rewrite bool_decide_eq_true_2.
Qed.

Lemma Legacy_spawnBugRandomly_wave g :
  runMode g ≠ Paused →
  let n := getRandomNumber (env_calls g) MIN_BUGS_TO_SPAWN MAX_BUGS_TO_SPAWN in
  (0 ≤ n < 2 ^ 32)%Z →
  Legacy.spawnBugRandomly g
  = Some (setTimeout cb_spawnBugRandomly
            (getRandomNumber (S (env_calls g) + Z.to_nat n)
               MIN_SPAWN_INTERVAL MAX_SPAWN_INTERVAL)
            (set_env_calls (S (S (env_calls g) + Z.to_nat n))
               (set_gameObjects
                  (gameObjects g ++ spawned_from (S (env_calls g)) (Z.to_nat n))
                  g))).
Proof.
  intros Hm n Hn. unfold Legacy.spawnBugRandomly, isPaused.
  rewrite bool_decide_eq_false_2 by done. cbn [negb]. fold n.
  unfold Array_fill_null. rewrite bool_decide_eq_true_2 by done.
  cbn [mbind option_bind]. change Legacy.spawnBug with _spawnBug.
  rewrite foldl_spawnBug. done.
Qed.

(** X13: the constructor of the earlier revision, when [getRandomNumber]
    keeps to its bounds, returns a game whose objects are the cursor, then
    the food of [generate(8)], then the bugs of a first wave: none if the
    game is constructed paused, 1 to 3 otherwise, with no start needed.  It
    leaves one spawn timer pending, with a delay within 800 and 1500 ms, and
    does not touch the persistent store. *)
Theorem Legacy_constructor_spawns_at_once mode page localStorage :
  RandomRange →
  ∃ g n k,
    Legacy.new_BugTap mode page localStorage = Some g
    ∧ gameObjects g
      = GCursor :: (GFood <$> FoodManager_generate 0 8) ++ spawned_from 2 n
    ∧ (mode = Paused → n = 0)
    ∧ (mode ≠ Paused → 1 ≤ n ≤ 3)
    ∧ timers g
      = [{| callback := cb_spawnBugRandomly;
            delay := getRandomNumber k MIN_SPAWN_INTERVAL MAX_SPAWN_INTERVAL |}]
    ∧ (800 ≤ getRandomNumber k MIN_SPAWN_INTERVAL MAX_SPAWN_INTERVAL ≤ 1500)%Z
    ∧ store g = localStorage ∧ runMode g = mode.
Proof.
  intros Hrand.
  assert (∀ k, 800 ≤ getRandomNumber k MIN_SPAWN_INTERVAL MAX_SPAWN_INTERVAL
               ≤ 1500)%Z as Hdelay by (intros k; by apply Hrand).
  unfold Legacy.new_BugTap, Legacy.spawnBugsRandomly.
  destruct (decide (mode = Paused)) as [->|Hm].
  - rewrite Legacy_spawnBugRandomly_idle by done.
    eexists _, 0, _. split; [done|]. cbn. rewrite app_nil_r.
    split; [done|]. split; [done|]. split; [done|]. split; [done|].
    split; [apply Hdelay|done].
  - assert (1 ≤ getRandomNumber 1 MIN_BUGS_TO_SPAWN MAX_BUGS_TO_SPAWN ≤ 3)%Z
      as Hn by (by apply Hrand).
    rewrite Legacy_spawnBugRandomly_wave by (cbn; done || lia).
    eexists _, (Z.to_nat (getRandomNumber 1 MIN_BUGS_TO_SPAWN
                            MAX_BUGS_TO_SPAWN)), _.
    split; [done|]. cbn. split; [done|]. split; [done|].
    split; [lia|]. split; [done|]. split; [apply Hdelay|done].
Qed.

(** X14: the spawn cycle of the earlier revision and the current one do the
    same whenever the game is running with food, or is paused.  They differ
    in every other case (the game not paused and not running, or without
    food): there the current cycle adds nothing, while the earlier one, when
    [getRandomNumber] keeps to its bounds, spawns 1 to 3 bugs. *)
Theorem Legacy_cycle_against_current g :
  ((runMode g = Running ∧ _food g ≠ []) ∨ runMode g = Paused →
   Legacy.spawnBugRandomly g = spawnBugRandomly g)
  ∧ (RandomRange → runMode g ≠ Paused →
     ¬ (runMode g = Running ∧ _food g ≠ []) →
     ∃ g_earlier g_current n,
       Legacy.spawnBugRandomly g = Some g_earlier
       ∧ spawnBugRandomly g = Some g_current
       ∧ gameObjects g_current = gameObjects g
       ∧ 1 ≤ n ≤ 3
       ∧ gameObjects g_earlier
         = gameObjects g ++ spawned_from (S (env_calls g)) n).
Proof.
  split.
  - intros Hsame.
    assert (negb (isPaused g)
            = isRunning g && bool_decide (0 < length (_food g))) as Hguard.
    { destruct Hsame as [Hyes|Hm].
      - rewrite (proj2 (spawn_guard_true g) Hyes). destruct Hyes as [Hm _].
        unfold isPaused. by rewrite Hm.
      - unfold isPaused, isRunning. by rewrite Hm. }
    unfold Legacy.spawnBugRandomly, spawnBugRandomly.
    change Legacy.spawnBug with _spawnBug. by rewrite Hguard.
  - intros Hrand Hm Hno.
    assert (1 ≤ getRandomNumber (env_calls g) MIN_BUGS_TO_SPAWN
                   MAX_BUGS_TO_SPAWN ≤ 3)%Z as Hn by (by apply Hrand).
    rewrite Legacy_spawnBugRandomly_wave by (done || lia).
    rewrite spawnBugRandomly_idle by (by apply spawn_guard_false).
    eexists _, _, (Z.to_nat (getRandomNumber (env_calls g) MIN_BUGS_TO_SPAWN
                               MAX_BUGS_TO_SPAWN)).
    split; [done|]. split; [done|]. split; [done|]. split; [lia|done].
Qed.

End Earlier.

(** ** The first start click *)

Section FirstStart.
Context `{E : Engine}.

(** X15: the first click on the start button, on a game as constructed, with
    an engine whose [start()] takes a game not started to running and whose
    [getRandomNumber] keeps to its bounds.  The first spawn cycle and the
    first tick run within the click, not after a delay: when the handler
    returns the game is running, holds the cursor, the ten pieces of food
    and a first wave of 1 to 3 bugs (none if [generate] returned no food),
    the clock already shows ["Time: 0:01"] and the store holds ["time"] =
    ["1"] alone, one timer of each loop is pending, and the welcome section
    is hidden and the game section shown. *)
Theorem first_start_click page localStorage :
  Game_start NotStarted = Running → RandomRange →
  ∃ g n k,
    dispatch StartButtonClick (new_BugTap page localStorage) = Some g
    ∧ runMode g = Running ∧ calls g = [CallStart]
    ∧ _food g = FoodManager_generate 0 AMOUNT_OF_FOOD
    ∧ gameObjects g = GCursor :: (GFood <$> _food g) ++ spawned_from 2 n
    ∧ (_food g ≠ [] → 1 ≤ n ≤ 3) ∧ (_food g = [] → n = 0)
    ∧ _time g = 1%Z ∧ _score g = 0%Z
    ∧ time_innerHTML (document g) = "Time: 0:01"
    ∧ store g = {["time" := "1"]}
    ∧ timers g
      = [{| callback := cb_spawnBugRandomly;
            delay := getRandomNumber k MIN_SPAWN_INTERVAL MAX_SPAWN_INTERVAL |};
         {| callback := cb_startTime; delay := 1000 |}]
    ∧ welcome_section_hidden (document g) = true
    ∧ game_section_hidden (document g) = false.
Proof.
  intros Hstart Hrand.
  set (h := _initFood (start (new_BugTap page localStorage))).
  assert (runMode h = Running) as Hm by exact Hstart.
  destruct (spawnBugRandomly_total h Hrand) as [g1 Hg1].
  pose proof (spawnBugRandomly_shape _ _ Hg1) as (n & k & Hshape & Hidle & Hwave).
  assert (dispatch StartButtonClick (new_BugTap page localStorage)
          = Some (set_document
                    (set_game_section_hidden false
                       (set_welcome_section_hidden true
                          (document (startTime g1))))
                    (startTime g1))) as Hd.
  { cbn [dispatch]. unfold _startButtonOnClick, _spawnBugsRandomly.
    fold h. rewrite Hg1. reflexivity. }
  assert (runMode g1 ≠ Paused) as Hm1 by (rewrite Hshape; cbn; congruence).
  rewrite startTime_not_paused in Hd by done.
  eexists _, n, k. split; [exact Hd|]. rewrite Hshape. cbn.
  split; [done|]. split; [done|]. split; [done|]. split; [done|].
  assert (isRunning h && bool_decide (0 < length (_food h))
          = bool_decide (FoodManager_generate 0 AMOUNT_OF_FOOD ≠ [])) as Hgo.
  { unfold isRunning. rewrite Hm. cbn.
    destruct (FoodManager_generate 0 AMOUNT_OF_FOOD) as [|f fs];
      repeat case_bool_decide; simpl in *; try done; lia. }
  split.
  { intros Hf.
    rewrite (bool_decide_eq_true_2 (FoodManager_generate 0 AMOUNT_OF_FOOD ≠ []))
      in Hgo by done.
    specialize (Hwave Hgo). cbn in Hwave.
    assert (1 ≤ getRandomNumber 1 MIN_BUGS_TO_SPAWN MAX_BUGS_TO_SPAWN ≤ 3)%Z
      by (by apply Hrand). lia. }
  split.
  { intros Hf.
    rewrite (bool_decide_eq_false_2 (FoodManager_generate 0 AMOUNT_OF_FOOD ≠ []))
      in Hgo by (by intros ?).
    by apply Hidle. }
  split; [done|]. split; [done|]. split; [by vm_compute|].
  split; [by vm_compute|]. done.
Qed.

End FirstStart.

(** ** The further properties on a concrete game *)

Section ConcreteFurther.
Local Existing Instance Demo.engine.

(** The tap that kills the bug at index 11 leaves it at index 11. *)
Lemma game_objects_stay_in_place_witness :
  run [MouseDown 16 3] Demo.started = Some Demo.tapped
  ∧ length (gameObjects Demo.started) ≤ length (gameObjects Demo.tapped)
  ∧ ∃ o', gameObjects Demo.tapped !! 11 = Some o'
          ∧ same_or_killed
              (GBug {| boundingBox :=
                         {| x := 10; y := 0; width := 20; height := 20 |};
                       points := 5; alive := true |}) o'.
Proof.
  assert (run [MouseDown 16 3] Demo.started = Some Demo.tapped) as Hrun
    by (vm_compute; reflexivity).
  split; [exact Hrun|].
  destruct (game_objects_stay_in_place _ _ _ Hrun) as [Hlen Hkept].
  split; [exact Hlen|]. apply Hkept. reflexivity.
Defined.

Lemma run_mode_moved_by_buttons_only_witness :
  dispatch (MouseDown 16 3) Demo.started = Some Demo.tapped
  ∧ runMode Demo.tapped = runMode Demo.started
  ∧ calls Demo.tapped = calls Demo.started.
Proof.
  assert (dispatch (MouseDown 16 3) Demo.started = Some Demo.tapped) as Hd
    by (vm_compute; reflexivity).
  split; [exact Hd|].
  apply (run_mode_moved_by_buttons_only _ _ _ Hd); discriminate.
Defined.

Lemma clock_never_goes_back_witness :
  run Demo.session Demo.g0 = Some Demo.ended
  ∧ (_time Demo.g0 ≤ _time Demo.ended ≤ _time Demo.g0 + 5)%Z.
Proof.
  assert (run Demo.session Demo.g0 = Some Demo.ended) as Hrun
    by (vm_compute; reflexivity).
  split; [exact Hrun|]. exact (clock_never_goes_back _ _ _ Hrun).
Defined.

Lemma store_mirrors_counters_witness :
  run Demo.session Demo.g0 = Some Demo.ended
  ∧ soundPoint_plays Demo.ended ≠ []
  ∧ store Demo.ended !! "score" = Some (toString (_score Demo.ended))
  ∧ store Demo.ended !! "theme" = None.
Proof.
  assert (run Demo.session Demo.g0 = Some Demo.ended) as Hrun
    by (vm_compute; reflexivity).
  assert (soundPoint_plays Demo.ended ≠ []) as Hp by discriminate.
  split; [exact Hrun|]. split; [exact Hp|].
  destruct (store_mirrors_counters Demo.page Demo.localStorage _ _ Hrun)
    as (_ & Hscore & _ & _ & Hother).
  split; [exact (Hscore Hp)|]. apply Hother; discriminate.
Defined.

Lemma page_mirrors_counters_witness :
  run Demo.session Demo.g0 = Some Demo.ended
  ∧ _time Demo.ended ≠ 0%Z
  ∧ time_innerHTML (document Demo.ended)
    = "Time: " +:+ formatSeconds (_time Demo.ended).
Proof.
  assert (run Demo.session Demo.g0 = Some Demo.ended) as Hrun
    by (vm_compute; reflexivity).
  assert (_time Demo.ended ≠ 0%Z) as Ht by discriminate.
  split; [exact Hrun|]. split; [exact Ht|].
  destruct (page_mirrors_counters Demo.page Demo.localStorage _ _ Hrun)
    as (_ & _ & _ & Htime).
  exact (Htime Ht).
Defined.

(** After a second start click two loops of each kind are pending. *)
Lemma one_loop_pair_per_start_witness :
  run [StartButtonClick; MouseDown 16 3; StartButtonClick] Demo.g0
  = Some Demo.restarted
  ∧ count_starts (calls Demo.restarted) = 2
  ∧ count_callback cb_startTime (timers Demo.restarted)
    = count_starts (calls Demo.restarted)
  ∧ count_callback cb_spawnBugRandomly (timers Demo.restarted)
    = count_starts (calls Demo.restarted).
Proof.
  assert (run [StartButtonClick; MouseDown 16 3; StartButtonClick] Demo.g0
          = Some Demo.restarted) as Hrun by (vm_compute; reflexivity).
  split; [exact Hrun|]. split; [reflexivity|].
  destruct (one_loop_pair_per_start Demo.page Demo.localStorage _ _ Hrun)
    as (Hspawn & Htick & _).
  split; [exact Htick|exact Hspawn].
Defined.

Lemma bug_manager_food_is_game_food_witness :
  run Demo.session Demo.g0 = Some Demo.ended
  ∧ bugManager_food Demo.ended = _food Demo.ended
  ∧ length (_food Demo.ended) = 10.
Proof.
  assert (run Demo.session Demo.g0 = Some Demo.ended) as Hrun
    by (vm_compute; reflexivity).
  split; [exact Hrun|]. split; [|reflexivity].
  exact (proj1 (bug_manager_food_is_game_food Demo.page Demo.localStorage
                  _ _ Hrun)).
Defined.

Lemma toggle_twice_round_trip_witness :
  Game_pause Running = Paused ∧ Game_resume Paused = Running
  ∧ runMode Demo.started = Running
  ∧ runMode (_pauseButtonOnClick (_pauseButtonOnClick Demo.started)) = Running
  ∧ store (_pauseButtonOnClick (_pauseButtonOnClick Demo.started))
    = store Demo.started.
Proof.
  split; [reflexivity|]. split; [reflexivity|]. split; [reflexivity|].
  pose proof (toggle_twice_round_trip Demo.started eq_refl eq_refl eq_refl)
    as H.
  cbv zeta in H.
  destruct H as (_ & _ & Hm & _ & _ & _ & _ & _ & _ & Hst & _).
  split; [exact Hm|exact Hst].
Defined.

Lemma formatSeconds_injective_witness :
  (0 ≤ 65)%Z ∧ formatSeconds 65 = formatSeconds (60 + 5)
  ∧ formatSeconds 65 ≠ formatSeconds 125.
Proof.
  split; [lia|]. split; [reflexivity|].
  intros Heq. apply formatSeconds_injective in Heq; lia.
Defined.

(** With an engine whose [getRandomNumber] returns -1 the spawn cycle of a
    running game with food raises. *)
Lemma spawn_cycle_raises_iff_witness :
  runMode Demo.started = Running ∧ _food Demo.started ≠ []
  ∧ @spawnBugRandomly Demo.broken_engine Demo.started = None.
Proof.
  assert (_food Demo.started ≠ []) as Hf by discriminate.
  split; [reflexivity|]. split; [exact Hf|].
  apply (proj1 (@spawn_cycle_raises_iff Demo.broken_engine Demo.started)).
  split; [reflexivity|]. split; [exact Hf|]. cbn. lia.
Defined.


Lemma Legacy_constructor_spawns_at_once_witness :
  RandomRange
  ∧ ∃ g, Legacy.new_BugTap NotStarted Demo.page Demo.localStorage = Some g
         ∧ store g = Demo.localStorage
         ∧ 10 ≤ length (gameObjects g) ≤ 12.
Proof.
  split; [exact Demo_RandomRange|].
  destruct (Legacy_constructor_spawns_at_once NotStarted Demo.page
              Demo.localStorage Demo_RandomRange)
    as (g & n & k & Hg & Hobjs & _ & Hn & _ & _ & Hst & _).
  exists g. split; [exact Hg|]. split; [exact Hst|].
  rewrite Hobjs. cbn [length]. rewrite length_app, length_spawned_from.
  specialize (Hn ltac:(discriminate)). rewrite length_fmap.
  change (length (FoodManager_generate 0 8)) with 8. lia.
Defined.

(** On the game as constructed (not started, no food) the earlier cycle
    spawns and the current one does not. *)
Lemma Legacy_cycle_against_current_witness :
  RandomRange ∧ runMode Demo.g0 ≠ Paused
  ∧ ¬ (runMode Demo.g0 = Running ∧ _food Demo.g0 ≠ [])
  ∧ ∃ g_earlier g_current,
      Legacy.spawnBugRandomly Demo.g0 = Some g_earlier
      ∧ spawnBugRandomly Demo.g0 = Some g_current
      ∧ gameObjects g_current = gameObjects Demo.g0
      ∧ length (gameObjects Demo.g0) < length (gameObjects g_earlier).
Proof.
  assert (runMode Demo.g0 ≠ Paused) as Hm by discriminate.
  assert (¬ (runMode Demo.g0 = Running ∧ _food Demo.g0 ≠ [])) as Hno
    by (intros [? _]; discriminate).
  split; [exact Demo_RandomRange|]. split; [exact Hm|]. split; [exact Hno|].
  destruct (proj2 (Legacy_cycle_against_current Demo.g0)
              Demo_RandomRange Hm Hno)
    as (ge & gc & n & He & Hc & Hsame & Hn & Hobjs).
  exists ge, gc. split; [exact He|]. split; [exact Hc|].
  split; [exact Hsame|]. rewrite Hobjs, length_app, length_spawned_from. lia.
Defined.

Lemma first_start_click_witness :
  Game_start NotStarted = Running ∧ RandomRange
  ∧ ∃ g, dispatch StartButtonClick Demo.g0 = Some g
         ∧ _time g = 1%Z ∧ store g = {["time" := "1"]}.
Proof.
  split; [reflexivity|]. split; [exact Demo_RandomRange|].
  assert (Game_start NotStarted = Running) as Hstart by reflexivity.
  destruct (first_start_click Demo.page Demo.localStorage Hstart
              Demo_RandomRange)
    as (g & n & k & Hd & _ & _ & _ & _ & _ & _ & Ht & _ & _ & Hst & _).
  exists g. split; [exact Hd|]. split; [exact Ht|exact Hst].
Defined.

End ConcreteFurther.
